(** * Scripts/mcp_oauth_test_server.py: the Todoist-style MCP OAuth test server

    A shallow embedding of the script and the properties of its two routes,
    of its command line and of its start-up.

    What is modelled, and at which level:
    - [resource_metadata], [do_POST], [do_GET], [log_message] and [main] are
      transcribed from the script.  A handler is a sequence of calls on the
      response under construction ([send_response], [send_header],
      [end_headers], [wfile_write]); the record [Wire] holds what the
      handler passed to those calls: the status code, the headers it added,
      the bytes it wrote.  The [Server] and [Date] headers that
      [BaseHTTPRequestHandler] adds on its own are below that level.
    - A [Request] is what the handler sees: [self.command], [self.path] (the
      request target as the base class hands it over), the request headers
      and the unread request body.  The dispatch on [self.command] belongs
      to the base class ([handle_one_request]: a missing [do_<command>]
      gives [send_error(501)]); the class of the script defines [do_POST]
      and [do_GET] only.
    - Before that, the base class reads the bytes of the connection
      ([receive], [handle]): the request line, the protocol version, the
      collapse of a leading [//] of the target, the limits on the header
      section.  Its replies are recorded by the code given to [send_error]
      and the protocol version it has noted: for [HTTP/0.9] the base class
      puts neither status line nor headers on the wire.  The parser of the
      header block is a parameter.
    - Text: the arguments of the command line are UTF-8, the request line
      is ISO 8859-1; [int] follows Python 3.11 (Unicode 14.0.0).
    - The environment of [main] is the table of loopback TCP ports that are
      taken, with the documented answers of [bind] for a program run by an
      ordinary user: a port outside [0, 65535] is refused by Python, a port
      below 1024 by the kernel ([EACCES]), a port that is taken gives
      [EADDRINUSE], and port [0] asks the kernel for a free port of its
      choice.
    - Diagnostic output on standard error is kept apart from the responses:
      [log_message] and the two banner lines of [main] are functions to the
      text they print; the callers of [log_message] are those of the base
      class ([log_request], [log_error]). *)

From Stdlib Require Import ZArith Bool List Ascii String DecimalString DecimalZ Lia.
From stdpp Require Import base decidable strings gmap.
Import ListNotations.

Local Open Scope string_scope.

(* Concatenations of literals are to be computed by [simpl]. *)
#[local] Arguments String.append !s1 s2 : simpl nomatch.

(** ** Python values *)

(** A double quote, as a one-character string. *)
Definition dq : string := String "034"%char EmptyString.

Fixpoint requote (s : string) : string :=
  match s with
  | EmptyString => EmptyString
  | String c s' =>
      String (if Ascii.eqb c "'"%char then "034"%char else c) (requote s')
  end.

(** [py "..."] is a Python literal that holds double quotes: the literal is
    written with an apostrophe in the place of each double quote.  None of
    the literals of the script holds an apostrophe of its own. *)
Definition py (s : string) : string := requote s.

(** [str(n)] for an [int]. *)
Definition str (n : Z) : string := NilZero.string_of_int (Z.to_int n).

(** [s.startswith(p)] *)
Definition startswith (s p : string) : bool := String.prefix p s.

(** Exceptions that can end the program. *)
Inductive exn : Type :=
| ValueError
| OverflowError
| OSError (errno : Z).

Definition EADDRINUSE : Z := 98.
Definition EACCES : Z := 13.

Inductive result (A : Type) : Type :=
| Ok (a : A)
| Raise (e : exn).
Arguments Ok {A} a.
Arguments Raise {A} e.

(** An exception raised by a call ends the calling function too: nothing in
    the script catches one of these. *)
#[export] Instance result_bind : MBind result := fun A B f r =>
  match r with
  | Ok a => f a
  | Raise e => Raise e
  end.

(** *** Text

    A [str] of Python is a sequence of code points.  The strings of the
    command line reach the program as bytes and are decoded as UTF-8
    ([sys.argv]); the request line of a request is decoded as ISO 8859-1,
    one byte for one code point. *)

Definition codepoints_of_latin1 (s : string) : list N :=
  map N_of_ascii (list_ascii_of_string s).

Definition is_continuation (b : N) : bool := ((0x80 <=? b) && (b <=? 0xbf))%N.

(** The code points of a UTF-8 text.  Bytes that are not UTF-8 (a stray
    byte, an overlong form, a surrogate, a value above U+10FFFF) give
    [None]: Python escapes them as lone surrogates, which are no digits and
    no white space. *)
Fixpoint utf8_decode (l : list N) : option (list N) :=
  match l with
  | [] => Some []
  | b0 :: l1 =>
      if (b0 <? 0x80)%N then option_map (cons b0) (utf8_decode l1)
      else if ((0xc2 <=? b0) && (b0 <=? 0xdf))%N then
        match l1 with
        | b1 :: l2 =>
            if is_continuation b1
            then option_map (cons ((b0 - 0xc0) * 64 + (b1 - 0x80))%N) (utf8_decode l2)
            else None
        | _ => None
        end
      else if ((0xe0 <=? b0) && (b0 <=? 0xef))%N then
        match l1 with
        | b1 :: b2 :: l3 =>
            let c := ((b0 - 0xe0) * 4096 + (b1 - 0x80) * 64 + (b2 - 0x80))%N in
            if is_continuation b1 && is_continuation b2 && (0x800 <=? c)%N
               && negb ((0xd800 <=? c) && (c <=? 0xdfff))%N
            then option_map (cons c) (utf8_decode l3)
            else None
        | _ => None
        end
      else if ((0xf0 <=? b0) && (b0 <=? 0xf4))%N then
        match l1 with
        | b1 :: b2 :: b3 :: l4 =>
            let c := ((b0 - 0xf0) * 262144 + (b1 - 0x80) * 4096
                      + (b2 - 0x80) * 64 + (b3 - 0x80))%N in
            if is_continuation b1 && is_continuation b2 && is_continuation b3
               && (0x10000 <=? c)%N && (c <=? 0x10ffff)%N
            then option_map (cons c) (utf8_decode l4)
            else None
        | _ => None
        end
      else None
  end.

(** The white space above U+007F ([str.isspace], Unicode 14.0.0). *)
Definition unicode_spaces : list N :=
  [0x85; 0xa0; 0x1680; 0x2000; 0x2001; 0x2002;
   0x2003; 0x2004; 0x2005; 0x2006; 0x2007; 0x2008;
   0x2009; 0x200a; 0x2028; 0x2029; 0x202f; 0x205f;
   0x3000]%N.

(** The first code point of each block of ten decimal digits above ASCII
    ([unicodedata.decimal], Unicode 14.0.0): the digit of value [d] of a
    block that begins at [z] is [z + d]. *)
Definition unicode_decimal_zeros : list N :=
  [0x660; 0x6f0; 0x7c0; 0x966; 0x9e6; 0xa66;
   0xae6; 0xb66; 0xbe6; 0xc66; 0xce6; 0xd66;
   0xde6; 0xe50; 0xed0; 0xf20; 0x1040; 0x1090;
   0x17e0; 0x1810; 0x1946; 0x19d0; 0x1a80; 0x1a90;
   0x1b50; 0x1bb0; 0x1c40; 0x1c50; 0xa620; 0xa8d0;
   0xa900; 0xa9d0; 0xa9f0; 0xaa50; 0xabf0; 0xff10;
   0x104a0; 0x10d30; 0x11066; 0x110f0; 0x11136; 0x111d0;
   0x112f0; 0x11450; 0x114d0; 0x11650; 0x116c0; 0x11730;
   0x118e0; 0x11950; 0x11c50; 0x11d50; 0x11da0; 0x16a60;
   0x16ac0; 0x16b50; 0x1d7ce; 0x1d7d8; 0x1d7e2; 0x1d7ec;
   0x1d7f6; 0x1e140; 0x1e2f0; 0x1e950; 0x1fbf0]%N.

Definition is_unicode_space (c : N) : bool :=
  existsb (N.eqb c) unicode_spaces.

Fixpoint decimal_in (zeros : list N) (c : N) : option N :=
  match zeros with
  | [] => None
  | z :: zeros' =>
      if ((z <=? c) && (c <? z + 10))%N then Some (c - z)%N
      else decimal_in zeros' c
  end.

Definition unicode_decimal (c : N) : option N := decimal_in unicode_decimal_zeros c.

(** *** [int(s)] on a [str]

    A text with a code point above U+007F is first brought to ASCII: white
    space becomes a blank and a decimal digit its ASCII digit; at any other
    such code point the text is cut and ends in [?], which no integer
    literal does ([None] here).  Then, base 10: white space is stripped on
    both sides, one sign is allowed, then decimal digits, with single
    underscores between digits only.  A literal of more than
    [int_max_str_digits] digits is refused (the default of
    [sys.int_max_str_digits]).  Everything else raises [ValueError]. *)

Definition is_space (c : ascii) : bool :=
  let n := nat_of_ascii c in
  ((9 <=? n) && (n <=? 13) || (n =? 32))%nat.

Definition is_digit (c : ascii) : bool :=
  let n := nat_of_ascii c in ((48 <=? n) && (n <=? 57))%nat.

Definition digit_value (c : ascii) : Z := (Z.of_nat (nat_of_ascii c) - 48)%Z.

Fixpoint lstrip (l : list ascii) : list ascii :=
  match l with
  | c :: l' => if is_space c then lstrip l' else l
  | [] => []
  end.

Definition strip (l : list ascii) : list ascii :=
  rev (lstrip (rev (lstrip l))).

(** [scan_digits l acc n after_digit]: the value of the digits read so far
    is [acc], [n] digits were read, and [after_digit] says that the
    previous character was a digit. *)
Fixpoint scan_digits (l : list ascii) (acc : Z) (n : nat) (after_digit : bool)
  : option (Z * nat) :=
  match l with
  | [] => if after_digit then Some (acc, n) else None
  | c :: l' =>
      if is_digit c then scan_digits l' (10 * acc + digit_value c)%Z (S n) true
      else if Ascii.eqb c "_"%char then
        (if after_digit then scan_digits l' acc n false else None)
      else None
  end.

Definition int_max_str_digits : nat := 4300.

(** The parse of an ASCII text. *)
Definition int_ascii (text : list ascii) : result Z :=
  let l := strip text in
  let '(negative, ds) :=
    match l with
    | c :: l' =>
        if Ascii.eqb c "-"%char then (true, l')
        else if Ascii.eqb c "+"%char then (false, l')
        else (false, l)
    | [] => (false, l)
    end in
  match scan_digits ds 0%Z 0%nat false with
  | Some (v, n) =>
      if (int_max_str_digits <? n)%nat then Raise ValueError
      else Ok (if negative then (- v)%Z else v)
  | None => Raise ValueError
  end.

Fixpoint to_ascii_digits (l : list N) : option (list ascii) :=
  match l with
  | [] => Some []
  | c :: l' =>
      if (c <? 127)%N then option_map (cons (ascii_of_N c)) (to_ascii_digits l')
      else if is_unicode_space c then option_map (cons " "%char) (to_ascii_digits l')
      else match unicode_decimal c with
           | Some d => option_map (cons (ascii_of_N (48 + d))) (to_ascii_digits l')
           | None => None
           end
  end.

(** [int] on a text given by its code points. *)
Definition int_text (l : list N) : result Z :=
  if forallb (fun c => (c <? 128)%N) l then int_ascii (map ascii_of_N l)
  else match to_ascii_digits l with
       | Some text => int_ascii text
       | None => Raise ValueError
       end.

(** [int] on an argument of the command line. *)
Definition int (s : string) : result Z :=
  match utf8_decode (codepoints_of_latin1 s) with
  | Some l => int_text l
  | None => Raise ValueError
  end.

(** ** The response under construction *)

Record Wire : Type := mkWire {
  status : option Z;                  (* the code given to send_response *)
  headers : list (string * string);   (* send_header, in order *)
  headers_ended : bool;               (* end_headers was called *)
  body : string                       (* the bytes written to wfile *)
}.

Definition blank : Wire :=
  {| status := None; headers := []; headers_ended := false; body := "" |}.

(** A handler runs in the state monad over the response: each call of the
    base class returns [None] and leaves its mark on the response. *)
Definition M (A : Type) : Type := Wire -> A * Wire.

#[export] Instance M_ret : MRet M := fun A a w => (a, w).
#[export] Instance M_bind : MBind M := fun A B f m w =>
  let '(a, w') := m w in f a w'.

Definition send_response (code : Z) : M unit := fun w =>
  (tt, {| status := Some code; headers := headers w;
          headers_ended := headers_ended w; body := body w |}).

Definition send_header (keyword value : string) : M unit := fun w =>
  (tt, {| status := status w; headers := headers w ++ [(keyword, value)];
          headers_ended := headers_ended w; body := body w |}).

Definition end_headers : M unit := fun w =>
  (tt, {| status := status w; headers := headers w;
          headers_ended := true; body := body w |}).

Definition wfile_write (b : string) : M unit := fun w =>
  (tt, {| status := status w; headers := headers w;
          headers_ended := headers_ended w; body := body w +:+ b |}).

(** The response a handler leaves, started from nothing. *)
Definition run (m : M unit) : Wire := snd (m blank).

(** The value of the first header of that name. *)
Fixpoint find_header (name : string) (hs : list (string * string)) : option string :=
  match hs with
  | [] => None
  | (k, v) :: hs' => if String.eqb k name then Some v else find_header name hs'
  end.

Definition header (name : string) (w : Wire) : option string :=
  find_header name (headers w).

(** ** The script *)

Definition DEFAULT_PORT : Z := 8765.

Definition resource_metadata (port : Z) : string :=
  "http://127.0.0.1:" +:+ str port +:+ "/.well-known/oauth-protected-resource/mcp".

(** The server object: [server_address] is the (host, port) pair of the
    bound socket. *)
Record HTTPServer : Type := mkServer {
  server_address : string * Z
}.

(** [self] inside a handler method. *)
Record Handler : Type := mkHandler {
  server : HTTPServer;
  command : string;
  path : string;
  request_headers : list (string * string);
  rfile : string
}.

Definition do_POST (self : Handler) : M unit :=
  let port := snd (server_address (server self)) in
  if String.eqb (path self) "/mcp" || startswith (path self) "/mcp/" then
    send_response 401 ;;
    send_header "Content-Type" "application/json; charset=utf-8" ;;
    send_header
      "WWW-Authenticate"
      (py "Bearer realm='mcp-server', resource_metadata='" +:+ resource_metadata port +:+ py "'") ;;
    end_headers ;;
    let body := py "{'jsonrpc':'2.0','id':null,'error':{'code':-32600,'message':'Missing or invalid OAuth authorization'}}" in
    wfile_write body
  else
    send_response 404 ;;
    end_headers.

(** [str(port).encode()] is the decimal text of the port itself: bytes and
    text are the same strings here. *)
Definition do_GET (self : Handler) : M unit :=
  let port := snd (server_address (server self)) in
  if String.eqb (path self) "/.well-known/oauth-protected-resource/mcp"
     || String.eqb (path self) "/.well-known/oauth-protected-resource" then
    send_response 200 ;;
    send_header "Content-Type" "application/json" ;;
    end_headers ;;
    let body := py "{'resource':'http://127.0.0.1:" +:+ str port +:+ py "/mcp','authorization_servers':[{'issuer':'https://auth.example.com'}]}" in
    wfile_write body
  else
    send_response 404 ;;
    end_headers.

(** The [do_*] methods of [TodoistStyleHandler]. *)
Definition TodoistStyleHandler : list (string * (Handler -> M unit)) :=
  [("do_POST", do_POST); ("do_GET", do_GET)].

Fixpoint getattr (name : string) (cls : list (string * (Handler -> M unit)))
  : option (Handler -> M unit) :=
  match cls with
  | [] => None
  | (k, m) :: cls' => if String.eqb k name then Some m else getattr name cls'
  end.

(** ** One request *)

(** A request, as the base class has parsed it for the handler. *)
Record Request : Type := mkRequest {
  req_command : string;
  req_path : string;
  req_headers : list (string * string);
  req_body : string
}.

(** What the client gets: the response of a handler method, or the error
    reply of the base class for a command without a method
    ([send_error(HTTPStatus.NOT_IMPLEMENTED, "Unsupported method (%r)" % command)]). *)
Inductive Outcome : Type :=
| Responded (w : Wire)
| Unsupported_method (cmd : string).

Definition status_code (o : Outcome) : option Z :=
  match o with
  | Responded w => status w
  | Unsupported_method _ => Some 501%Z
  end.

(** The handler object the server creates for a request. *)
Definition self_of (srv : HTTPServer) (r : Request) : Handler :=
  {| server := srv; command := req_command r; path := req_path r;
     request_headers := req_headers r; rfile := req_body r |}.

(** [BaseHTTPRequestHandler.handle_one_request], after [parse_request]. *)
Definition handle_one_request (srv : HTTPServer) (r : Request) : Outcome :=
  let self := self_of srv r in
  let mname := "do_" +:+ command self in
  match getattr mname TodoistStyleHandler with
  | None => Unsupported_method (command self)
  | Some method => Responded (run (method self))
  end.

(** ** One connection

    What [BaseHTTPRequestHandler] does with the bytes of a connection before
    a method of the script runs ([handle_one_request] and [parse_request],
    [http.client._read_headers]).  The server speaks HTTP/1.0
    ([protocol_version]), so that a connection carries one request. *)

Definition CR : ascii := "013"%char.
Definition LF : ascii := "010"%char.
Definition crlf : string := String CR (String LF "").

Definition len (s : string) : N := N.of_nat (String.length s).

(** [rfile.readline(limit)]: the bytes up to and with the first line feed,
    [limit] bytes at most, and the bytes that are left. *)
Fixpoint readline (limit : N) (s : string) : string * string :=
  match s with
  | "" => ("", "")
  | String c s' =>
      if (limit =? 0)%N then ("", s)
      else if Ascii.eqb c LF then (String c "", s')
      else let '(line, rest) := readline (limit - 1) s' in (String c line, rest)
  end.

(** [s.rstrip('\r\n')] *)
Fixpoint rstrip_crlf (s : string) : string :=
  match s with
  | "" => ""
  | String c s' =>
      match rstrip_crlf s' with
      | "" => if Ascii.eqb c CR || Ascii.eqb c LF then "" else String c ""
      | r => String c r
      end
  end.

(** [c.isspace()] for a code point below 256. *)
Definition isspace (c : ascii) : bool :=
  let n := N_of_ascii c in
  ((9 <=? n) && (n <=? 13) || (28 <=? n) && (n <=? 32)
   || (n =? 0x85) || (n =? 0xa0))%N.

(** [s.split()]: the words between runs of white space. *)
Fixpoint str_split (s : string) : list string :=
  match s with
  | "" => []
  | String c s' =>
      if isspace c then str_split s'
      else
        match s' with
        | "" => [String c ""]
        | String c' _ =>
            if isspace c' then String c "" :: str_split s'
            else match str_split s' with
                 | w :: ws => String c w :: ws
                 | [] => [String c ""]
                 end
        end
  end.

(** [s.split(".")] *)
Fixpoint split_dot (s : string) : list string :=
  match s with
  | "" => [""]
  | String c s' =>
      if Ascii.eqb c "."%char then "" :: split_dot s'
      else match split_dot s' with
           | w :: ws => String c w :: ws
           | [] => [String c ""]
           end
  end.

(** [s.split('/', 1)[1]]: the text after the first slash; [None] is the
    [IndexError] of a text without one. *)
Fixpoint after_slash (s : string) : option string :=
  match s with
  | "" => None
  | String c s' => if Ascii.eqb c "/"%char then Some s' else after_slash s'
  end.

(** [s.lstrip('/')] *)
Fixpoint lstrip_slash (s : string) : string :=
  match s with
  | String c s' => if Ascii.eqb c "/"%char then lstrip_slash s' else s
  | "" => ""
  end.

(** The [try] block of [parse_request]: the two numbers of [HTTP/x.y];
    [None] is the [ValueError] or [IndexError] that the block catches. *)
Definition version_number (version : string) : option (Z * Z) :=
  if negb (startswith version "HTTP/") then None
  else
    match after_slash version with
    | None => None
    | Some base_version_number =>
        match split_dot base_version_number with
        | [major; minor] =>
            match int_text (codepoints_of_latin1 major),
                  int_text (codepoints_of_latin1 minor) with
            | Ok x, Ok y => Some (x, y)
            | _, _ => None
            end
        | _ => None
        end
    end.

Definition default_request_version : string := "HTTP/0.9".

(** The path the handler gets for a request target: a target that begins
    with two slashes is reduced to a single leading slash. *)
Definition handed_path (target : string) : string :=
  if startswith target "//" then "/" +:+ lstrip_slash target else target.

(** The first part of [parse_request], on the request line.  An error
    carries [self.request_version] as it is when [send_error] is called:
    for [HTTP/0.9] no status line and no header are put on the wire. *)
Inductive requestline_result : Type :=
| RL_silent
| RL_error (request_version : string) (code : Z)
| RL_ok (request_version command path : string).

Definition parse_requestline (raw_requestline : string) : requestline_result :=
  let requestline := rstrip_crlf raw_requestline in
  let words := str_split requestline in
  if (length words =? 0)%nat then RL_silent
  else
    let checked : requestline_result + string :=
      if (3 <=? length words)%nat then
        let version := List.last words "" in
        match version_number version with
        | None => inl (RL_error default_request_version 400)
        | Some (major, minor) =>
            if ((2 <? major) || (major =? 2) && (0 <=? minor))%Z
            then inl (RL_error default_request_version 505)
            else inr version
        end
      else inr default_request_version in
    match checked with
    | inl e => e
    | inr request_version =>
        if negb ((2 <=? length words) && (length words <=? 3))%nat
        then RL_error request_version 400
        else
          let command := nth 0 words "" in
          let path := nth 1 words "" in
          if (length words =? 2)%nat && negb (String.eqb command "GET")
          then RL_error request_version 400
          else RL_ok request_version command (handed_path path)
    end.

(** [http.client._read_headers]: [room] is what is left of [_MAXHEADERS],
    the blank line that ends the headers counts as a line. *)
Inductive headers_result : Type :=
| Line_too_long
| Too_many_headers
| Headers_read (lines : list string) (rest : string).

Definition is_blank (line : string) : bool :=
  String.eqb line crlf || String.eqb line (String LF "") || String.eqb line "".

Fixpoint read_headers (room : nat) (s : string) (headers : list string)
  : headers_result :=
  let '(line, rest) := readline 65537 s in
  if (65536 <? len line)%N then Line_too_long
  else
    match room with
    | O => Too_many_headers
    | S room' =>
        if is_blank line then Headers_read (headers ++ [line]) rest
        else read_headers room' rest (headers ++ [line])
    end.

(** [parse_request]: [parsestr] is the parser of the header block
    ([email.parser.Parser(_class=self.MessageClass).parsestr]), which is
    not modelled; what is left of the bytes is the body. *)
Inductive parse_result : Type :=
| Parse_silent
| Parse_error (request_version : string) (code : Z)
| Parse_ok (request_version : string) (r : Request).

Definition parse_request (parsestr : string -> list (string * string))
    (raw_requestline rest : string) : parse_result :=
  match parse_requestline raw_requestline with
  | RL_silent => Parse_silent
  | RL_error v code => Parse_error v code
  | RL_ok v command path =>
      match read_headers 100 rest [] with
      | Line_too_long => Parse_error v 431
      | Too_many_headers => Parse_error v 431
      | Headers_read lines body =>
          Parse_ok v {| req_command := command; req_path := path;
                        req_headers := parsestr (String.concat "" lines);
                        req_body := body |}
      end
  end.

(** [handle_one_request] up to the dispatch. *)
Definition receive (parsestr : string -> list (string * string))
    (rfile : string) : parse_result :=
  let '(raw_requestline, rest) := readline 65537 rfile in
  if (65536 <? len raw_requestline)%N then Parse_error "" 414
  else if String.eqb raw_requestline "" then Parse_silent
  else parse_request parsestr raw_requestline rest.

(** What a connection gets back: nothing, an error reply of the base class
    ([send_error(code)]), or the response of a method of the script.
    [request_version] is the version the base class has noted by then: when
    it is [HTTP/0.9], the status line and the headers stay off the wire. *)
Inductive Reply : Type :=
| No_reply
| Error_reply (request_version : string) (code : Z)
| Handler_reply (request_version : string) (w : Wire).

(** [BaseHTTPRequestHandler.handle], for the bytes [rfile] of a
    connection. *)
Definition handle (parsestr : string -> list (string * string))
    (srv : HTTPServer) (rfile : string) : Reply :=
  match receive parsestr rfile with
  | Parse_silent => No_reply
  | Parse_error v code => Error_reply v code
  | Parse_ok v r =>
      match handle_one_request srv r with
      | Responded w => Handler_reply v w
      | Unsupported_method _ => Error_reply v 501
      end
  end.

(** The request target of a connection: the second word of its first
    line. *)
Definition request_target (rfile : string) : string :=
  nth 1 (str_split (rstrip_crlf (fst (readline 65537 rfile)))) "".

Fixpoint no_line_feed (s : string) : bool :=
  match s with
  | "" => true
  | String c s' => negb (Ascii.eqb c LF) && no_line_feed s'
  end.

(** A header line as a client sends it: bytes without a line feed, then a
    line feed; not the blank line, and within [_MAXLINE]. *)
Definition header_line (l : string) : Prop :=
  exists text,
    l = text +:+ String LF "" /\ no_line_feed text = true /\
    (len l <= 65536)%N /\ is_blank l = false.

(** The bytes of a header section: its lines, then what follows. *)
Definition lines_then (ls : list string) (tail : string) : string :=
  fold_right String.append tail ls.

(** A stand-in for the header parser in concrete runs: the header block as
    one field without a name. *)
Definition one_field (hstring : string) : list (string * string) :=
  [("", hstring)].

Fixpoint repeat_string (n : nat) (s : string) : string :=
  match n with
  | O => ""
  | S n' => s +:+ repeat_string n' s
  end.

(** ** The environment: loopback ports *)

(** [listening]: the ports of 127.0.0.1 that are taken: those with a
    listener, and those held by a bound socket that does not share its
    address.
    [ephemeral]: the port the kernel picks, given the ports taken, when a
    socket is bound to port 0. *)
Record Kernel : Type := mkKernel {
  listening : gset Z;
  ephemeral : gset Z -> Z
}.

(** The program runs as an ordinary user: the ports below
    [unprivileged_port_start] are refused to it, and the ports the kernel
    picks on its own lie above them.  A run with the privilege to bind
    those ports is outside the model. *)
Definition unprivileged_port_start : Z := 1024.

(** [socket.bind((host, port))] followed by [getsockname()]: the port the
    socket is bound to.  The port is checked for its range by Python, then
    for the permission and for its use by the kernel, in this order. *)
Definition socket_bind (k : Kernel) (port : Z) : result (Kernel * Z) :=
  if (port <? 0)%Z || (65535 <? port)%Z then Raise OverflowError
  else if (0 <? port)%Z && (port <? unprivileged_port_start)%Z
  then Raise (OSError EACCES)
  else
    let p := if (port =? 0)%Z then ephemeral k (listening k) else port in
    if bool_decide (p ∈ listening k) || (p <? unprivileged_port_start)%Z
       || (65535 <? p)%Z
    then Raise (OSError EADDRINUSE)
    else Ok ({| listening := {[p]} ∪ listening k; ephemeral := ephemeral k |}, p).

(** [HTTPServer((host, port), TodoistStyleHandler)]: binds, then records the
    address of the bound socket as [server_address]. *)
Definition HTTPServer_init (k : Kernel) (address : string * Z)
  : result (Kernel * HTTPServer) :=
  '(k', p) ← socket_bind k (snd address);
  Ok (k', {| server_address := (fst address, p) |}).

(** [server.serve_forever()] up to the interrupt: the requests that arrive
    are answered one at a time, each by a handler on the same server. *)
Definition serve_forever (srv : HTTPServer) (requests : list Request) : list Outcome :=
  map (handle_one_request srv) requests.

Definition server_close (k : Kernel) (srv : HTTPServer) : Kernel :=
  {| listening := listening k ∖ {[snd (server_address srv)]};
     ephemeral := ephemeral k |}.

(** ** [main] *)

(** The conditional expression of the first line of [main]. *)
Definition main_port (argv : list string) : result Z :=
  if (1 <? length argv)%nat then int (nth 1 argv "") else Ok DEFAULT_PORT.

(** The first two statements of [main]: everything before the server
    serves. *)
Definition startup (argv : list string) (k : Kernel) : result (Kernel * HTTPServer) :=
  port ← main_port argv;
  HTTPServer_init k ("127.0.0.1", port).

(** [main], with the requests that arrive before the interrupt. *)
Definition main (argv : list string) (k : Kernel) (requests : list Request)
  : result (Kernel * list Outcome) :=
  '(k', server) ← startup argv k;
  let answers := serve_forever server requests in
  Ok (server_close k' server, answers).

(** ** The routes, as the specification names them *)

Definition metadata_path : string := "/.well-known/oauth-protected-resource/mcp".
Definition metadata_path_short : string := "/.well-known/oauth-protected-resource".

(** A POST to [/mcp] or to a path that begins with [/mcp/]. *)
Definition is_mcp_post (r : Request) : Prop :=
  req_command r = "POST" /\
  (req_path r = "/mcp" \/ exists rest, req_path r = "/mcp/" +:+ rest).

(** A GET to one of the two metadata paths. *)
Definition is_metadata_get (r : Request) : Prop :=
  req_command r = "GET" /\
  (req_path r = metadata_path \/ req_path r = metadata_path_short).

(** [http://<host>:<port><path>] *)
Definition http_url (host : string) (port : Z) (p : string) : string :=
  "http://" +:+ host +:+ ":" +:+ str port +:+ p.

(** The challenge of the specification, spelled with explicit quotes. *)
Definition challenge_text (url : string) : string :=
  "Bearer realm=" +:+ dq +:+ "mcp-server" +:+ dq +:+
  ", resource_metadata=" +:+ dq +:+ url +:+ dq.

(** The fixed JSON-RPC error of the specification. *)
Definition jsonrpc_error_text : string :=
  "{" +:+ dq +:+ "jsonrpc" +:+ dq +:+ ":" +:+ dq +:+ "2.0" +:+ dq +:+ "," +:+
  dq +:+ "id" +:+ dq +:+ ":null," +:+
  dq +:+ "error" +:+ dq +:+ ":{" +:+ dq +:+ "code" +:+ dq +:+ ":-32600," +:+
  dq +:+ "message" +:+ dq +:+ ":" +:+
  dq +:+ "Missing or invalid OAuth authorization" +:+ dq +:+ "}}".

(** The metadata document of the specification for a resource URL. *)
Definition metadata_text (resource : string) : string :=
  "{" +:+ dq +:+ "resource" +:+ dq +:+ ":" +:+ dq +:+ resource +:+ dq +:+ "," +:+
  dq +:+ "authorization_servers" +:+ dq +:+ ":[{" +:+
  dq +:+ "issuer" +:+ dq +:+ ":" +:+ dq +:+ "https://auth.example.com" +:+ dq +:+ "}]}".

(** The reply of both handlers on a path they do not know. *)
Definition not_found : Wire :=
  {| status := Some 404%Z; headers := []; headers_ended := true; body := "" |}.

(** A host on which no loopback port has a listener; its kernel hands out
    49152 for port 0. *)
Definition idle_kernel : Kernel :=
  {| listening := ∅; ephemeral := fun _ => 49152%Z |}.

(** ** Diagnostic output *)

(** A positional argument of a logging call: a text or a number. *)
Inductive pyval : Type :=
| PStr (s : string)
| PInt (n : Z).

(** [f"{v}"] *)
Definition format_value (v : pyval) : string :=
  match v with
  | PStr s => s
  | PInt n => str n
  end.

Definition newline : string := String "010"%char EmptyString.

(** [print(text, file=sys.stderr, flush=True)]: the characters written. *)
Definition print (text : string) : string := text +:+ newline.

(** [TodoistStyleHandler.log_message(format, *args)]: what it writes to
    standard error; [None] is the [IndexError] of [args[0]] when [args] is
    empty. *)
Definition log_message (format : string) (args : list pyval) : option string :=
  match args with
  | [] => None
  | a :: _ => Some (print ("[server] " +:+ format_value a))
  end.

(** The two callers of [log_message] in the base class:
    [log_request(code, size)], called by [send_response], and
    [log_error(format, *args)], called by [send_error]. *)
Definition log_request (requestline : string) (code : Z) (size : string)
  : option string :=
  log_message (py "'%s' %s %s") [PStr requestline; PStr (str code); PStr size].

Definition log_error (format : string) (args : list pyval) : option string :=
  log_message format args.

(** The two [print] calls of [main], after the server is built. *)
Definition banner (port : Z) : list string :=
  [ print ("Todoist-style MCP OAuth test server on http://127.0.0.1:" +:+ str port);
    print ("POST /mcp -> 401 WWW-Authenticate resource_metadata=" +:+
           resource_metadata port) ].

(** What [main] has printed when it begins to serve: an exception before
    that point leaves nothing printed by [main]. *)
Definition main_prints (argv : list string) (k : Kernel) : result (list string) :=
  port ← main_port argv;
  _ ← HTTPServer_init k ("127.0.0.1", port);
  Ok (banner port).

(** [int(str(p))] gives [p] back, as a check that computes, and the check
    on the [2 ^ bits] numbers from [base] on. *)
Definition int_str_agree (p : Z) : bool :=
  match int (str p) with
  | Ok v => (v =? p)%Z
  | Raise _ => false
  end.

Fixpoint all_from (bits : nat) (base : Z) (f : Z -> bool) : bool :=
  match bits with
  | O => f base
  | S b => all_from b base f && all_from b (base + 2 ^ Z.of_nat b)%Z f
  end.

(** ** The model on concrete inputs *)

Example py_puts_the_quotes_back : py "'id':null" = dq +:+ "id" +:+ dq +:+ ":null".
Proof. reflexivity. Qed.

Example str_examples : str 8765 = "8765" /\ str 0 = "0" /\ str (-3) = "-3".
Proof. repeat split. Qed.

Example int_examples :
  int "8765" = Ok 8765%Z /\ int " +1_000 " = Ok 1000%Z /\ int "-5" = Ok (-5)%Z /\
  int "007" = Ok 7%Z /\
  int "" = Raise ValueError /\ int "abc" = Raise ValueError /\
  int "1__0" = Raise ValueError /\ int "_1" = Raise ValueError /\
  int "8765 x" = Raise ValueError /\ int "0x10" = Raise ValueError /\
  int "- 5" = Raise ValueError.
Proof. repeat split. Qed.

(** Beyond ASCII: the information separators are no white space for [int];
    four fullwidth nines (U+FF19) are 9999, a no-break space (U+00A0) is
    stripped, an Arabic-Indic three (U+0663) is 3, a superscript two
    (U+00B2) is no digit, and an overlong form of [9] is not UTF-8. *)
Example int_beyond_ascii :
  int (String "028" "9999") = Raise ValueError /\
  int (String "239" (String "188" (String "153"
        (String "239" (String "188" (String "153"
        (String "239" (String "188" (String "153"
        (String "239" (String "188" (String "153" "")))))))))))) = Ok 9999%Z /\
  int (String "194" (String "160" "80")) = Ok 80%Z /\
  int (String "217" (String "163" "")) = Ok 3%Z /\
  int (String "194" (String "178" "")) = Raise ValueError /\
  int (String "192" (String "185" "")) = Raise ValueError.
Proof. repeat split. Qed.

Example resource_metadata_9999 :
  resource_metadata 9999 = "http://127.0.0.1:9999/.well-known/oauth-protected-resource/mcp".
Proof. reflexivity. Qed.

(** The scenario of the specification: server on port 9999, POST [/mcp]. *)
Example scenario_9999 :
  handle_one_request {| server_address := ("127.0.0.1", 9999%Z) |}
    (mkRequest "POST" "/mcp" [] "") =
  Responded
    {| status := Some 401%Z;
       headers :=
         [("Content-Type", "application/json; charset=utf-8");
          ("WWW-Authenticate",
           challenge_text
             "http://127.0.0.1:9999/.well-known/oauth-protected-resource/mcp")];
       headers_ended := true;
       body := jsonrpc_error_text |}.
Proof. reflexivity. Qed.

Example unrelated_paths :
  handle_one_request {| server_address := ("127.0.0.1", 9999%Z) |}
    (mkRequest "GET" "/foo" [] "") = Responded not_found /\
  handle_one_request {| server_address := ("127.0.0.1", 9999%Z) |}
    (mkRequest "POST" "/bar" [] "") = Responded not_found.
Proof. split; reflexivity. Qed.

Example jsonrpc_error_text_length : String.length jsonrpc_error_text = 102%nat.
Proof. reflexivity. Qed.

(** Ninety-nine header lines are read, a hundred are not. *)
Example header_limit :
  handle one_field {| server_address := ("127.0.0.1", 9999%Z) |}
    ("GET /foo HTTP/1.1" +:+ crlf +:+ repeat_string 99 ("X: 1" +:+ crlf) +:+ crlf)
  = Handler_reply "HTTP/1.1" not_found /\
  handle one_field {| server_address := ("127.0.0.1", 9999%Z) |}
    ("GET /foo HTTP/1.1" +:+ crlf +:+ repeat_string 100 ("X: 1" +:+ crlf) +:+ crlf)
  = Error_reply "HTTP/1.1" 431.
Proof. split; vm_compute; reflexivity. Qed.

(** Connections, byte for byte: a full request, a request line without
    version (HTTP/0.9), a version the server does not speak, a request line
    of one word, and no byte at all. *)
Example connections :
  handle one_field {| server_address := ("127.0.0.1", 9999%Z) |}
    ("GET /foo HTTP/1.1" +:+ crlf +:+ "Host: 127.0.0.1" +:+ crlf +:+ crlf)
  = Handler_reply "HTTP/1.1" not_found /\
  receive one_field
    ("POST /mcp HTTP/1.0" +:+ crlf +:+ "Content-Length: 2" +:+ crlf +:+ crlf +:+ "{}")
  = Parse_ok "HTTP/1.0"
      (mkRequest "POST" "/mcp"
         [("", "Content-Length: 2" +:+ crlf +:+ crlf)] "{}") /\
  handle one_field {| server_address := ("127.0.0.1", 9999%Z) |}
    ("GET /foo" +:+ crlf) = Handler_reply "HTTP/0.9" not_found /\
  handle one_field {| server_address := ("127.0.0.1", 9999%Z) |}
    ("POST /mcp" +:+ crlf) = Error_reply "HTTP/0.9" 400 /\
  handle one_field {| server_address := ("127.0.0.1", 9999%Z) |}
    ("GET / HTTP/2.0" +:+ crlf +:+ crlf) = Error_reply "HTTP/0.9" 505 /\
  handle one_field {| server_address := ("127.0.0.1", 9999%Z) |}
    ("GET / HTTP/1.x" +:+ crlf +:+ crlf) = Error_reply "HTTP/0.9" 400 /\
  handle one_field {| server_address := ("127.0.0.1", 9999%Z) |}
    ("GET / extra HTTP/1.1" +:+ crlf +:+ crlf) = Error_reply "HTTP/1.1" 400 /\
  handle one_field {| server_address := ("127.0.0.1", 9999%Z) |}
    ("PUT /mcp HTTP/1.1" +:+ crlf +:+ crlf) = Error_reply "HTTP/1.1" 501 /\
  handle one_field {| server_address := ("127.0.0.1", 9999%Z) |} crlf = No_reply /\
  handle one_field {| server_address := ("127.0.0.1", 9999%Z) |} "" = No_reply.
Proof. repeat split. Qed.

(** ** Strings *)

Lemma append_assoc (a b c : string) : (a +:+ b) +:+ c = a +:+ (b +:+ c).
Proof.
  induction a as [|x a IH]; simpl; [reflexivity | now rewrite IH].
Qed.

Lemma startswith_spec (s p : string) :
  startswith s p = true <-> exists rest, s = p +:+ rest.
Proof.
  unfold startswith. revert s.
  induction p as [|x p IH]; intros s; simpl.
  - split; [intros _; now exists s | intros _; now destruct s].
  - destruct s as [|y s].
    + split; [discriminate | intros [rest H]; discriminate].
    + simpl. destruct (ascii_dec x y) as [->|Hxy].
      * rewrite IH. split; intros [rest H]; exists rest.
        -- now rewrite H.
        -- now injection H.
      * split; [discriminate | intros [rest H]; injection H; congruence].
Qed.

Lemma startswith_false (s p : string) :
  ~ (exists rest, s = p +:+ rest) -> startswith s p = false.
Proof.
  intros H. destruct (startswith s p) eqn:E; [|reflexivity].
  exfalso. apply H. now apply startswith_spec.
Qed.

(** ** The dispatch *)

Lemma getattr_do (c : string) :
  getattr ("do_" +:+ c) TodoistStyleHandler =
    if String.eqb c "POST" then Some do_POST
    else if String.eqb c "GET" then Some do_GET
    else None.
Proof.
  unfold TodoistStyleHandler, getattr.
  change (String.eqb "do_POST" ("do_" +:+ c)) with (String.eqb "POST" c).
  change (String.eqb "do_GET" ("do_" +:+ c)) with (String.eqb "GET" c).
  rewrite (String.eqb_sym "POST" c), (String.eqb_sym "GET" c).
  reflexivity.
Qed.

Lemma handle_POST (srv : HTTPServer) (r : Request) :
  req_command r = "POST" ->
  handle_one_request srv r = Responded (run (do_POST (self_of srv r))).
Proof.
  intros H. unfold handle_one_request.
  cbv zeta. rewrite getattr_do. cbn [command self_of]. rewrite H. reflexivity.
Qed.

Lemma handle_GET (srv : HTTPServer) (r : Request) :
  req_command r = "GET" ->
  handle_one_request srv r = Responded (run (do_GET (self_of srv r))).
Proof.
  intros H. unfold handle_one_request.
  cbv zeta. rewrite getattr_do. cbn [command self_of]. rewrite H. reflexivity.
Qed.

Lemma handle_other (srv : HTTPServer) (r : Request) :
  req_command r <> "POST" -> req_command r <> "GET" ->
  handle_one_request srv r = Unsupported_method (req_command r).
Proof.
  intros HP HG. unfold handle_one_request.
  cbv zeta. rewrite getattr_do. cbn [command self_of].
  apply String.eqb_neq in HP. apply String.eqb_neq in HG.
  rewrite HP, HG. reflexivity.
Qed.

Lemma do_POST_match (self : Handler) :
  path self = "/mcp" \/ (exists rest, path self = "/mcp/" +:+ rest) ->
  run (do_POST self) =
    {| status := Some 401%Z;
       headers := [("Content-Type", "application/json; charset=utf-8");
                   ("WWW-Authenticate",
                    challenge_text (resource_metadata (snd (server_address (server self)))))];
       headers_ended := true;
       body := jsonrpc_error_text |}.
Proof.
  intros H. unfold do_POST.
  assert (E : String.eqb (path self) "/mcp" || startswith (path self) "/mcp/" = true).
  { destruct H as [-> | H]; [reflexivity|].
    apply orb_true_iff. right. now apply startswith_spec. }
  rewrite E. unfold run, challenge_text, resource_metadata. simpl.
  rewrite !append_assoc. reflexivity.
Qed.

Lemma do_POST_miss (self : Handler) :
  path self <> "/mcp" -> ~ (exists rest, path self = "/mcp/" +:+ rest) ->
  run (do_POST self) = not_found.
Proof.
  intros H1 H2. unfold do_POST.
  apply String.eqb_neq in H1. rewrite H1, (startswith_false _ _ H2).
  reflexivity.
Qed.

Lemma do_GET_match (self : Handler) :
  path self = metadata_path \/ path self = metadata_path_short ->
  run (do_GET self) =
    {| status := Some 200%Z;
       headers := [("Content-Type", "application/json")];
       headers_ended := true;
       body := metadata_text
                 (http_url "127.0.0.1" (snd (server_address (server self))) "/mcp") |}.
Proof.
  intros H. unfold do_GET.
  assert (E : String.eqb (path self) "/.well-known/oauth-protected-resource/mcp"
              || String.eqb (path self) "/.well-known/oauth-protected-resource" = true).
  { destruct H as [-> | ->]; reflexivity. }
  rewrite E. unfold run, metadata_text, http_url. simpl.
  rewrite !append_assoc. reflexivity.
Qed.

Lemma do_GET_miss (self : Handler) :
  path self <> metadata_path -> path self <> metadata_path_short ->
  run (do_GET self) = not_found.
Proof.
  intros H1 H2. unfold do_GET.
  apply String.eqb_neq in H1. apply String.eqb_neq in H2.
  unfold metadata_path in H1. unfold metadata_path_short in H2.
  rewrite H1, H2. reflexivity.
Qed.

(** ** The two routes *)

Lemma challenge_of_post (srv : HTTPServer) (r : Request) :
  is_mcp_post r ->
  exists w,
    handle_one_request srv r = Responded w /\
    status w = Some 401%Z /\
    header "WWW-Authenticate" w =
      Some (challenge_text (http_url "127.0.0.1" (snd (server_address srv)) metadata_path)).
Proof.
  intros [Hc Hp]. eexists. split.
  - rewrite (handle_POST _ _ Hc). rewrite do_POST_match by exact Hp.
    reflexivity.
  - split; reflexivity.
Qed.

Lemma document_of_get (srv : HTTPServer) (r : Request) :
  is_metadata_get r ->
  exists w,
    handle_one_request srv r = Responded w /\
    status w = Some 200%Z /\
    body w = metadata_text (http_url "127.0.0.1" (snd (server_address srv)) "/mcp").
Proof.
  intros [Hc Hp]. eexists. split.
  - rewrite (handle_GET _ _ Hc). rewrite do_GET_match by exact Hp.
    reflexivity.
  - split; reflexivity.
Qed.

(** C1. Every POST whose path is [/mcp] or begins with [/mcp/] is answered
    with status 401, Content-Type [application/json; charset=utf-8], the
    WWW-Authenticate challenge whose [resource_metadata] is
    [http://127.0.0.1:<port>/.well-known/oauth-protected-resource/mcp] for
    the port the server is bound to, and the fixed JSON-RPC error as body. *)
Theorem post_mcp_is_challenged (srv : HTTPServer) (r : Request) :
  is_mcp_post r ->
  exists w,
    handle_one_request srv r = Responded w /\
    status w = Some 401%Z /\
    header "Content-Type" w = Some "application/json; charset=utf-8" /\
    header "WWW-Authenticate" w =
      Some (challenge_text
              ("http://127.0.0.1:" +:+ str (snd (server_address srv)) +:+
               "/.well-known/oauth-protected-resource/mcp")) /\
    body w = jsonrpc_error_text.
Proof.
  intros [Hc Hp]. eexists. split.
  - rewrite (handle_POST _ _ Hc). rewrite do_POST_match by exact Hp.
    reflexivity.
  - repeat split.
Qed.

Lemma post_mcp_is_challenged_witness :
  exists w,
    handle_one_request {| server_address := ("127.0.0.1", 9999%Z) |}
      (mkRequest "POST" "/mcp/messages" [("Accept", "application/json")] "{}")
    = Responded w /\
    status w = Some 401%Z /\
    header "WWW-Authenticate" w =
      Some (challenge_text
              "http://127.0.0.1:9999/.well-known/oauth-protected-resource/mcp").
Proof.
  destruct (post_mcp_is_challenged
              {| server_address := ("127.0.0.1", 9999%Z) |}
              (mkRequest "POST" "/mcp/messages" [("Accept", "application/json")] "{}"))
    as (w & Hw & Hs & _ & Hh & _).
  - split; [reflexivity | right; exists "messages"; reflexivity].
  - exists w. repeat split; assumption.
Defined.

(** C2. Every GET whose path is one of the two metadata paths is answered
    with status 200, Content-Type [application/json], and the metadata
    document whose resource is [http://127.0.0.1:<port>/mcp] for the port
    the server is bound to. *)
Theorem get_metadata_is_served (srv : HTTPServer) (r : Request) :
  is_metadata_get r ->
  exists w,
    handle_one_request srv r = Responded w /\
    status w = Some 200%Z /\
    header "Content-Type" w = Some "application/json" /\
    body w =
      metadata_text ("http://127.0.0.1:" +:+ str (snd (server_address srv)) +:+ "/mcp").
Proof.
  intros [Hc Hp]. eexists. split.
  - rewrite (handle_GET _ _ Hc). rewrite do_GET_match by exact Hp.
    reflexivity.
  - repeat split.
Qed.

Lemma get_metadata_is_served_witness :
  exists w,
    handle_one_request {| server_address := ("127.0.0.1", 9999%Z) |}
      (mkRequest "GET" "/.well-known/oauth-protected-resource/mcp" [] "")
    = Responded w /\
    status w = Some 200%Z /\
    body w = metadata_text "http://127.0.0.1:9999/mcp".
Proof.
  destruct (get_metadata_is_served
              {| server_address := ("127.0.0.1", 9999%Z) |}
              (mkRequest "GET" "/.well-known/oauth-protected-resource/mcp" [] ""))
    as (w & Hw & Hs & _ & Hb).
  - split; [reflexivity | left; reflexivity].
  - exists w. repeat split; assumption.
Defined.

(** C5. On one server, a GET to the metadata path without its last segment
    gets the very response of a GET to the full metadata path: status 200,
    the same headers, the same body. *)
Theorem short_metadata_path_same_response (srv : HTTPServer) (r1 r2 : Request) :
  req_command r1 = "GET" -> req_path r1 = "/.well-known/oauth-protected-resource" ->
  req_command r2 = "GET" -> req_path r2 = "/.well-known/oauth-protected-resource/mcp" ->
  exists w,
    handle_one_request srv r1 = Responded w /\
    handle_one_request srv r2 = Responded w /\
    status w = Some 200%Z.
Proof.
  intros Hc1 Hp1 Hc2 Hp2. eexists. repeat split.
  - rewrite (handle_GET _ _ Hc1). rewrite do_GET_match by (right; exact Hp1).
    reflexivity.
  - rewrite (handle_GET _ _ Hc2). rewrite do_GET_match by (left; exact Hp2).
    reflexivity.
  - reflexivity.
Qed.

Lemma short_metadata_path_same_response_witness :
  exists w,
    handle_one_request {| server_address := ("127.0.0.1", 8765%Z) |}
      (mkRequest "GET" "/.well-known/oauth-protected-resource" [] "") = Responded w /\
    handle_one_request {| server_address := ("127.0.0.1", 8765%Z) |}
      (mkRequest "GET" "/.well-known/oauth-protected-resource/mcp"
         [("Authorization", "Bearer x")] "") = Responded w /\
    status w = Some 200%Z.
Proof.
  apply short_metadata_path_same_response; reflexivity.
Defined.

(** What a method of the script answers depends on the method, the path
    and the server only: the handlers read neither the headers nor the
    body of the request. *)
Lemma response_ignores_headers_and_body (srv : HTTPServer) (r1 r2 : Request) :
  req_command r1 = req_command r2 ->
  req_path r1 = req_path r2 ->
  handle_one_request srv r1 = handle_one_request srv r2.
Proof.
  intros Hc Hp. unfold handle_one_request. cbv zeta. cbn [command self_of].
  rewrite <- Hc.
  destruct (getattr ("do_" +:+ req_command r1) TodoistStyleHandler) as [m|] eqn:E;
    [|reflexivity].
  rewrite getattr_do in E.
  destruct (String.eqb (req_command r1) "POST").
  - injection E as <-. unfold do_POST. cbn [path server self_of]. now rewrite Hp.
  - destruct (String.eqb (req_command r1) "GET"); [|discriminate].
    injection E as <-. unfold do_GET. cbn [path server self_of]. now rewrite Hp.
Qed.

(** ** Everything else *)

(** A PUT is neither of the two routes, and its answer is not a 404: the
    class has no [do_PUT], so the base class replies 501. *)
Lemma put_is_answered_501 :
  ~ is_mcp_post (mkRequest "PUT" "/mcp" [] "") /\
  ~ is_metadata_get (mkRequest "PUT" "/mcp" [] "") /\
  handle_one_request {| server_address := ("127.0.0.1", 8765%Z) |}
    (mkRequest "PUT" "/mcp" [] "") = Unsupported_method "PUT" /\
  status_code
    (handle_one_request {| server_address := ("127.0.0.1", 8765%Z) |}
       (mkRequest "PUT" "/mcp" [] "")) <> Some 404%Z.
Proof.
  repeat split.
  - intros [H _]. discriminate H.
  - intros [H _]. discriminate H.
  - discriminate.
Qed.

(** C3, amended. A request that is neither of the two routes is answered
    with status 404, no header and an empty body when its method is POST or
    GET; for any other method the class has no handler and the base class
    answers 501 (Not Implemented) instead. *)
Theorem other_requests (srv : HTTPServer) (r : Request) :
  ~ is_mcp_post r -> ~ is_metadata_get r ->
  (req_command r = "POST" \/ req_command r = "GET" ->
     handle_one_request srv r = Responded not_found) /\
  (req_command r <> "POST" -> req_command r <> "GET" ->
     handle_one_request srv r = Unsupported_method (req_command r) /\
     status_code (handle_one_request srv r) = Some 501%Z).
Proof.
  intros HP HG. split.
  - intros [Hc | Hc].
    + rewrite (handle_POST _ _ Hc). f_equal. apply do_POST_miss; cbn [path self_of].
      * intros E. apply HP. split; [exact Hc | now left].
      * intros E. apply HP. split; [exact Hc | now right].
    + rewrite (handle_GET _ _ Hc). f_equal. apply do_GET_miss; cbn [path self_of].
      * intros E. apply HG. split; [exact Hc | now left].
      * intros E. apply HG. split; [exact Hc | now right].
  - intros H1 H2. rewrite (handle_other _ _ H1 H2). split; reflexivity.
Qed.

Lemma other_requests_witness :
  handle_one_request {| server_address := ("127.0.0.1", 8765%Z) |}
    (mkRequest "POST" "/bar" [] "") = Responded not_found.
Proof.
  refine (proj1 (other_requests {| server_address := ("127.0.0.1", 8765%Z) |}
                   (mkRequest "POST" "/bar" [] "") _ _) _).
  - intros [_ [H | [rest H]]]; discriminate H.
  - intros [H _]. discriminate H.
  - left. reflexivity.
Defined.

(** The handlers compare [self.path] as a string: near misses of the two
    routes fall to the 404. *)
Lemma paths_are_matched_exactly (srv : HTTPServer)
    (hs : list (string * string)) (b : string) :
  (forall p : string,
     (exists rest, p = "/mcp" +:+ rest) ->
     p <> "/mcp" -> ~ (exists rest, p = "/mcp/" +:+ rest) ->
     handle_one_request srv (mkRequest "POST" p hs b) = Responded not_found) /\
  handle_one_request srv (mkRequest "POST" "/mcpx" hs b) = Responded not_found /\
  handle_one_request srv (mkRequest "POST" "/mcp?x=1" hs b) = Responded not_found /\
  (forall wk query : string,
     wk = metadata_path \/ wk = metadata_path_short ->
     handle_one_request srv (mkRequest "GET" (wk +:+ "/") hs b) = Responded not_found /\
     handle_one_request srv (mkRequest "GET" (wk +:+ "?" +:+ query) hs b)
       = Responded not_found).
Proof.
  split; [|split; [|split]].
  - intros p _ H1 H2. rewrite handle_POST by reflexivity.
    f_equal. now apply do_POST_miss.
  - reflexivity.
  - reflexivity.
  - intros wk query [-> | ->]; split; rewrite handle_GET by reflexivity;
      f_equal; apply do_GET_miss; cbn [path self_of req_path];
      unfold metadata_path, metadata_path_short; simpl; discriminate.
Qed.

(** ** The two replies point at each other *)

(** C9. On a server bound to [port], the challenge of a POST to [/mcp]
    names [http://127.0.0.1:<port>/.well-known/oauth-protected-resource/mcp],
    a GET to that very path is answered 200 on this server, the document it
    returns names [http://127.0.0.1:<port>/mcp], and a POST to that path is
    the one answered 401. *)
Theorem challenge_and_metadata_agree (srv : HTTPServer)
    (hs1 hs2 : list (string * string)) (b1 b2 : string) :
  let port := snd (server_address srv) in
  exists w401 w200,
    handle_one_request srv (mkRequest "POST" "/mcp" hs1 b1) = Responded w401 /\
    status w401 = Some 401%Z /\
    header "WWW-Authenticate" w401 =
      Some (challenge_text (http_url "127.0.0.1" port metadata_path)) /\
    handle_one_request srv (mkRequest "GET" metadata_path hs2 b2) = Responded w200 /\
    status w200 = Some 200%Z /\
    body w200 = metadata_text (http_url "127.0.0.1" port "/mcp").
Proof.
  intros port.
  destruct (challenge_of_post srv (mkRequest "POST" "/mcp" hs1 b1))
    as (w1 & E1 & S1 & H1).
  { split; [reflexivity | now left]. }
  destruct (document_of_get srv (mkRequest "GET" metadata_path hs2 b2))
    as (w2 & E2 & S2 & B2).
  { split; [reflexivity | now left]. }
  exists w1, w2. repeat split; assumption.
Qed.

(** ** Start-up *)

Lemma int_ascii_raises (text : list ascii) (e : exn) :
  int_ascii text = Raise e -> e = ValueError.
Proof.
  unfold int_ascii.
  destruct (match strip text with
            | [] => _ | c :: l' => _ end) as [negative ds].
  destruct (scan_digits ds 0 0 false) as [[v n]|]; [|congruence].
  destruct (int_max_str_digits <? n)%nat; congruence.
Qed.

Lemma int_text_raises (l : list N) (e : exn) :
  int_text l = Raise e -> e = ValueError.
Proof.
  unfold int_text. destruct (forallb _ l).
  - apply int_ascii_raises.
  - destruct (to_ascii_digits l); [apply int_ascii_raises | congruence].
Qed.

Lemma int_raises (s : string) (e : exn) : int s = Raise e -> e = ValueError.
Proof.
  unfold int. destruct (utf8_decode _); [apply int_text_raises | congruence].
Qed.

Lemma main_port_raises (argv : list string) (e : exn) :
  main_port argv = Raise e -> e = ValueError /\ (1 < length argv)%nat.
Proof.
  unfold main_port. destruct (1 <? length argv)%nat eqn:E; [|discriminate].
  intros H. split; [exact (int_raises _ _ H) | now apply Nat.ltb_lt].
Qed.

Lemma socket_bind_raises (k : Kernel) (port : Z) (e : exn) :
  socket_bind k port = Raise e ->
  e = OverflowError \/ exists errno, e = OSError errno.
Proof.
  unfold socket_bind.
  destruct ((port <? 0)%Z || (65535 <? port)%Z); [intros [= <-]; now left|].
  destruct ((0 <? port)%Z && (port <? unprivileged_port_start)%Z);
    [intros [= <-]; right; now eexists|].
  destruct (_ || _ || _); [intros [= <-]; right; now eexists | discriminate].
Qed.

Lemma socket_bind_Ok (k k' : Kernel) (port p : Z) :
  socket_bind k port = Ok (k', p) ->
  (0 <= port <= 65535)%Z /\ (1 <= p <= 65535)%Z /\
  (p ∉ listening k) /\ listening k' = {[p]} ∪ listening k /\
  (port <> 0%Z -> p = port) /\
  (port = 0%Z -> p = ephemeral k (listening k)).
Proof.
  unfold socket_bind, unprivileged_port_start.
  destruct ((port <? 0)%Z || (65535 <? port)%Z) eqn:R; [discriminate|].
  apply orb_false_iff in R as [R1 R2].
  apply Z.ltb_ge in R1. apply Z.ltb_ge in R2.
  destruct ((0 <? port)%Z && (port <? 1024)%Z); [discriminate|].
  set (q := if (port =? 0)%Z then ephemeral k (listening k) else port).
  destruct (bool_decide (q ∈ listening k) || (q <? 1024)%Z || (65535 <? q)%Z) eqn:U;
    [discriminate|].
  apply orb_false_iff in U as [U U3]. apply orb_false_iff in U as [U1 U2].
  apply bool_decide_eq_false in U1.
  apply Z.ltb_ge in U2. apply Z.ltb_ge in U3.
  intros [= <- <-]. simpl. repeat split; try lia; try assumption.
  - intros Hn. subst q. apply Z.eqb_neq in Hn. now rewrite Hn.
  - intros ->. reflexivity.
Qed.

Lemma socket_bind_unprivileged (k k' : Kernel) (port p : Z) :
  socket_bind k port = Ok (k', p) -> (1024 <= p <= 65535)%Z.
Proof.
  unfold socket_bind, unprivileged_port_start.
  destruct ((port <? 0)%Z || (65535 <? port)%Z); [discriminate|].
  destruct ((0 <? port)%Z && (port <? 1024)%Z); [discriminate|].
  set (q := if (port =? 0)%Z then ephemeral k (listening k) else port).
  destruct (bool_decide (q ∈ listening k) || (q <? 1024)%Z || (65535 <? q)%Z) eqn:U;
    [discriminate|].
  apply orb_false_iff in U as [U U3]. apply orb_false_iff in U as [U1 U2].
  apply Z.ltb_ge in U2. apply Z.ltb_ge in U3.
  intros [= _ <-]. lia.
Qed.

Lemma socket_bind_in_use (k : Kernel) (port : Z) :
  port ∈ listening k -> (1024 <= port <= 65535)%Z ->
  socket_bind k port = Raise (OSError EADDRINUSE).
Proof.
  intros Hin Hr. unfold socket_bind, unprivileged_port_start.
  assert (E1 : (port <? 0)%Z || (65535 <? port)%Z = false).
  { apply orb_false_iff. split; [apply Z.ltb_ge | apply Z.ltb_ge]; lia. }
  assert (E2 : (port =? 0)%Z = false) by (apply Z.eqb_neq; lia).
  assert (E3 : (0 <? port)%Z && (port <? 1024)%Z = false).
  { apply andb_false_iff. right. apply Z.ltb_ge. lia. }
  rewrite E1, E3, E2. rewrite (bool_decide_eq_true_2 _ Hin). reflexivity.
Qed.

Lemma startup_Ok (argv : list string) (k k' : Kernel) (srv : HTTPServer) :
  startup argv k = Ok (k', srv) ->
  exists port p,
    main_port argv = Ok port /\ socket_bind k port = Ok (k', p) /\
    srv = {| server_address := ("127.0.0.1", p) |}.
Proof.
  unfold startup, HTTPServer_init, mbind, result_bind.
  destruct (main_port argv) as [port|]; [|discriminate].
  cbn [snd fst].
  destruct (socket_bind k port) as [[k1 p]|] eqn:B; [|discriminate].
  intros [= <- <-]. now exists port, p.
Qed.

(** The port a server is bound to is never 0. *)
Lemma bound_port_positive (argv : list string) (k k' : Kernel) (srv : HTTPServer) :
  startup argv k = Ok (k', srv) -> (1 <= snd (server_address srv) <= 65535)%Z.
Proof.
  intros H. apply startup_Ok in H as (port & p & _ & B & ->).
  apply socket_bind_Ok in B. simpl. tauto.
Qed.

Lemma bound_port_unprivileged (argv : list string) (k k' : Kernel) (srv : HTTPServer) :
  startup argv k = Ok (k', srv) -> (1024 <= snd (server_address srv) <= 65535)%Z.
Proof.
  intros H. apply startup_Ok in H as (port & p & _ & B & ->).
  apply socket_bind_unprivileged in B. exact B.
Qed.

(** A first argument that is no integer literal ends the program with a
    [ValueError], on a host where every port is free: nothing was bound. *)
Lemma non_integer_argument_raises :
  listening idle_kernel = ∅ /\
  main_port ["mcp_oauth_test_server.py"; "abc"] = Raise ValueError /\
  startup ["mcp_oauth_test_server.py"; "abc"] idle_kernel = Raise ValueError /\
  main ["mcp_oauth_test_server.py"; "abc"] idle_kernel [] = Raise ValueError.
Proof.
  repeat split.
Qed.

(** C4, amended. Start-up fails in exactly two ways: [int] raises
    [ValueError] on the first argument, before anything is bound; or the
    argument, if any, is an integer and binding raises, an [OverflowError]
    for a port outside [0, 65535] or else a socket error ([OSError], such
    as the one of a port in use).  Without an argument only the second way
    is left. *)
Theorem startup_failures (argv : list string) (k : Kernel) (e : exn) :
  (startup argv k = Raise e <->
     (e = ValueError /\ (1 < length argv)%nat /\ int (nth 1 argv "") = Raise ValueError)
     \/ (exists port, main_port argv = Ok port /\ socket_bind k port = Raise e /\
                      (e = OverflowError \/ exists errno, e = OSError errno))) /\
  ((length argv <= 1)%nat ->
     startup argv k = Raise e -> socket_bind k DEFAULT_PORT = Raise e).
Proof.
  split.
  - unfold startup, HTTPServer_init, mbind, result_bind.
    destruct (main_port argv) as [port|e'] eqn:P; cbn [snd fst].
    + destruct (socket_bind k port) as [[k1 p]|e'] eqn:B.
      * split; [discriminate|].
        intros [(-> & L & H) | (port' & [= <-] & H & _)]; [|congruence].
        unfold main_port in P. apply Nat.ltb_lt in L. rewrite L in P.
        congruence.
      * split.
        -- intros [= <-]. right. exists port. repeat split.
           ++ exact B.
           ++ exact (socket_bind_raises _ _ _ B).
        -- intros [(-> & L & H) | (port' & [= <-] & H & _)]; [|congruence].
           unfold main_port in P. apply Nat.ltb_lt in L. rewrite L in P.
           congruence.
    + destruct (main_port_raises _ _ P) as [-> L]. split.
      * intros [= <-]. left. repeat split; [exact L|].
        unfold main_port in P. apply Nat.ltb_lt in L. now rewrite L in P.
      * intros [(-> & _) | (port' & [=] & _)]. reflexivity.
  - intros L. unfold startup, HTTPServer_init, main_port, mbind, result_bind.
    apply Nat.ltb_ge in L. rewrite L. cbn [snd fst].
    destruct (socket_bind k DEFAULT_PORT) as [[k1 p]|e']; congruence.
Qed.

Lemma startup_failures_witness :
  startup ["mcp_oauth_test_server.py"; "70000"] idle_kernel = Raise OverflowError /\
  socket_bind idle_kernel 70000 = Raise OverflowError.
Proof.
  assert (H : startup ["mcp_oauth_test_server.py"; "70000"] idle_kernel
              = Raise OverflowError) by reflexivity.
  split; [exact H|].
  destruct (proj1 (proj1 (startup_failures
                            ["mcp_oauth_test_server.py"; "70000"] idle_kernel
                            OverflowError)) H)
    as [(E & _) | (port & P & B & _)].
  - discriminate E.
  - injection P as <-. exact B.
Defined.

(** ** The port *)

(** With the argument [0] the server starts, and the port it listens on is
    not the argument parsed as an integer: the kernel has chosen it. *)
Lemma port_zero_listens_elsewhere :
  int "0" = Ok 0%Z /\
  main_port ["mcp_oauth_test_server.py"; "0"] = Ok 0%Z /\
  (exists k',
     startup ["mcp_oauth_test_server.py"; "0"] idle_kernel
     = Ok (k', {| server_address := ("127.0.0.1", 49152%Z) |})) /\
  49152%Z <> 0%Z.
Proof.
  split; [reflexivity|]. split; [reflexivity|]. split; [|discriminate].
  eexists. reflexivity.
Qed.

(** C6, amended. The port handed to the server is the first command-line
    argument parsed as an integer when there is one, and 8765 when there is
    none.  A server that starts with a port other than 0 listens on that
    port (for 0 the kernel picks the port), and every request of the
    process is answered by the server on this one port. *)
Theorem port_of_the_process (argv : list string) (k k' : Kernel)
    (srv : HTTPServer) (requests : list Request) :
  startup argv k = Ok (k', srv) ->
  exists port,
    ((1 < length argv)%nat -> int (nth 1 argv "") = Ok port) /\
    ((length argv <= 1)%nat -> port = 8765%Z) /\
    (port <> 0%Z -> server_address srv = ("127.0.0.1", port)) /\
    (port = 0%Z -> server_address srv = ("127.0.0.1", ephemeral k (listening k))) /\
    main argv k requests =
      Ok (server_close k' srv,
          map (handle_one_request
                 {| server_address := ("127.0.0.1", snd (server_address srv)) |})
              requests).
Proof.
  intros H. destruct (startup_Ok _ _ _ _ H) as (port & p & P & B & ->).
  exists port. apply socket_bind_Ok in B as (_ & _ & _ & _ & Hn & Hz).
  unfold main_port in P. repeat split.
  - intros L. apply Nat.ltb_lt in L. now rewrite L in P.
  - intros L. apply Nat.ltb_ge in L. rewrite L in P. now injection P.
  - intros Hp. simpl. now rewrite (Hn Hp).
  - intros Hp. simpl. now rewrite (Hz Hp).
  - unfold main, mbind, result_bind. rewrite H. reflexivity.
Qed.

Lemma port_of_the_process_witness :
  exists port,
    int "9999" = Ok port /\
    server_address {| server_address := ("127.0.0.1", 9999%Z) |} = ("127.0.0.1", port).
Proof.
  destruct (port_of_the_process
              ["mcp_oauth_test_server.py"; "9999"] idle_kernel
              {| listening := {[9999%Z]} ∪ ∅; ephemeral := fun _ => 49152%Z |}
              {| server_address := ("127.0.0.1", 9999%Z) |}
              [] eq_refl)
    as (port & Harg & _ & Hport & _).
  exists port. split.
  - apply Harg. simpl. lia.
  - apply Hport. specialize (Harg ltac:(simpl; lia)).
    injection Harg as <-. discriminate.
Defined.

(** ** Two instances *)

(** C7. While a server is bound to a port, starting the program again for
    that port fails at start-up: binding raises the socket error of a port
    in use, nothing in [main] catches it or tries again, and the program
    ends with it without serving. *)
Theorem second_instance_fails (argv1 argv2 : list string) (k k1 : Kernel)
    (srv1 : HTTPServer) :
  startup argv1 k = Ok (k1, srv1) ->
  main_port argv2 = Ok (snd (server_address srv1)) ->
  snd (server_address srv1) ∈ listening k1 /\
  forall k2 : Kernel,
    snd (server_address srv1) ∈ listening k2 ->
    startup argv2 k2 = Raise (OSError EADDRINUSE) /\
    forall requests, main argv2 k2 requests = Raise (OSError EADDRINUSE).
Proof.
  intros H1 H2.
  pose proof (bound_port_unprivileged _ _ _ _ H1) as Hr.
  destruct (startup_Ok _ _ _ _ H1) as (port & p & _ & B & ->).
  apply socket_bind_Ok in B as (_ & _ & _ & Hl & _).
  simpl in *. split.
  { rewrite Hl. apply elem_of_union. left. now apply elem_of_singleton. }
  intros k2 Hin.
  assert (E : startup argv2 k2 = Raise (OSError EADDRINUSE)).
  { unfold startup, HTTPServer_init, mbind, result_bind. rewrite H2.
    cbn [snd fst]. now rewrite (socket_bind_in_use _ _ Hin Hr). }
  split; [exact E|].
  intros requests. unfold main, mbind, result_bind. now rewrite E.
Qed.

Lemma second_instance_fails_witness :
  exists k1,
    startup ["mcp_oauth_test_server.py"] idle_kernel
    = Ok (k1, {| server_address := ("127.0.0.1", 8765%Z) |}) /\
    startup ["mcp_oauth_test_server.py"; "8765"] k1 = Raise (OSError EADDRINUSE).
Proof.
  exists {| listening := {[8765%Z]} ∪ ∅; ephemeral := fun _ => 49152%Z |}.
  split; [reflexivity|].
  destruct (second_instance_fails
              ["mcp_oauth_test_server.py"] ["mcp_oauth_test_server.py"; "8765"]
              idle_kernel
              {| listening := {[8765%Z]} ∪ ∅; ephemeral := fun _ => 49152%Z |}
              {| server_address := ("127.0.0.1", 8765%Z) |}
              eq_refl eq_refl) as [Hin Hk].
  exact (proj1 (Hk _ Hin)).
Defined.

(** ** The port table after the program *)

Lemma socket_bind_ephemeral (k k' : Kernel) (port p : Z) :
  socket_bind k port = Ok (k', p) -> ephemeral k' = ephemeral k.
Proof.
  unfold socket_bind.
  destruct ((port <? 0)%Z || (65535 <? port)%Z); [discriminate|].
  destruct ((0 <? port)%Z && (port <? unprivileged_port_start)%Z); [discriminate|].
  destruct (_ || _ || _); [discriminate|].
  now intros [= <- _].
Qed.

Lemma socket_bind_free (k : Kernel) (p : Z) :
  (1024 <= p <= 65535)%Z -> p ∉ listening k ->
  socket_bind k p =
    Ok ({| listening := {[p]} ∪ listening k; ephemeral := ephemeral k |}, p).
Proof.
  intros Hr Hf. unfold socket_bind, unprivileged_port_start.
  assert (E1 : (p <? 0)%Z || (65535 <? p)%Z = false).
  { apply orb_false_iff. split; apply Z.ltb_ge; lia. }
  assert (E2 : (p =? 0)%Z = false) by (apply Z.eqb_neq; lia).
  assert (E3 : (p <? 1024)%Z = false) by (apply Z.ltb_ge; lia).
  assert (E4 : (65535 <? p)%Z = false) by (apply Z.ltb_ge; lia).
  assert (E5 : (0 <? p)%Z && (p <? 1024)%Z = false)
    by (rewrite E3; apply andb_false_r).
  rewrite E1, E5, E2, (bool_decide_eq_false_2 _ Hf), E3, E4. reflexivity.
Qed.

(** X1. [main] gives the port back: while it serves, the port of the
    server is taken, a port that was free before; when [main] returns, the
    table of ports is again the one it found. *)
Theorem main_restores_port_table (argv : list string) (k k' : Kernel)
    (requests : list Request) (answers : list Outcome) :
  main argv k requests = Ok (k', answers) ->
  k' = k /\
  exists k1 srv,
    startup argv k = Ok (k1, srv) /\
    snd (server_address srv) ∈ listening k1 /\
    snd (server_address srv) ∉ listening k'.
Proof.
  unfold main, mbind, result_bind. intros H.
  destruct (startup argv k) as [[k1 srv]|] eqn:S; [|discriminate].
  injection H as <- <-.
  destruct (startup_Ok _ _ _ _ S) as (port & p & _ & B & ->).
  pose proof (socket_bind_ephemeral _ _ _ _ B) as He.
  apply socket_bind_Ok in B as (_ & _ & Hf & Hl & _).
  assert (E : server_close k1 {| server_address := ("127.0.0.1", p) |} = k).
  { unfold server_close. cbn [server_address snd]. rewrite He, Hl.
    destruct k as [L eph]. cbn [listening ephemeral] in *. f_equal.
    apply set_eq. intros x.
    rewrite elem_of_difference, elem_of_union, !elem_of_singleton.
    split.
    - intros [[Hx | Hx] Hn]; [contradiction | exact Hx].
    - intros Hx. split; [now right | intros ->; contradiction]. }
  rewrite E. split; [reflexivity|].
  exists k1, {| server_address := ("127.0.0.1", p) |}.
  split; [reflexivity|]. cbn [server_address snd]. split; [|exact Hf].
  rewrite Hl. apply elem_of_union. left. now apply elem_of_singleton.
Qed.

Lemma main_restores_port_table_witness :
  server_close
    {| listening := {[9999%Z]} ∪ ∅; ephemeral := ephemeral idle_kernel |}
    {| server_address := ("127.0.0.1", 9999%Z) |} = idle_kernel.
Proof.
  exact (proj1 (main_restores_port_table
                  ["mcp_oauth_test_server.py"; "9999"] idle_kernel _
                  [mkRequest "POST" "/mcp" [] ""; mkRequest "GET" "/foo" [] ""]
                  _ eq_refl)).
Defined.

(** ** Starting on a free port *)

Lemma all_from_spec (f : Z -> bool) (bits : nat) (base : Z) :
  all_from bits base f = true ->
  forall p, (base <= p < base + 2 ^ Z.of_nat bits)%Z -> f p = true.
Proof.
  revert base. induction bits as [|b IH]; intros base H p Hp.
  - cbn in Hp. assert (p = base) as -> by lia. exact H.
  - cbn [all_from] in H. apply andb_true_iff in H as [H1 H2].
    rewrite Nat2Z.inj_succ, Z.pow_succ_r in Hp by lia.
    destruct (Z_lt_ge_dec p (base + 2 ^ Z.of_nat b)) as [Hlt | Hge].
    + apply (IH base H1). lia.
    + apply (IH _ H2). lia.
Qed.

Lemma int_str_checked : all_from 16 0 int_str_agree = true.
Proof. vm_compute. reflexivity. Qed.

(** Every port number, written in decimal, is read back by [int]. *)
Lemma int_str (p : Z) : (0 <= p <= 65535)%Z -> int (str p) = Ok p.
Proof.
  intros Hp.
  assert (H : int_str_agree p = true).
  { apply (all_from_spec _ 16 0 int_str_checked).
    change (2 ^ Z.of_nat 16)%Z with 65536%Z. lia. }
  unfold int_str_agree in H.
  destruct (int (str p)) as [v|]; [|discriminate].
  apply Z.eqb_eq in H. now subst.
Qed.

(** X2. A port number from 1024 to 65535 that is free, given in decimal as
    the first argument, always starts the server on that port: the program
    name and any further arguments play no part.  Without an argument the
    server starts on 8765 when that port is free. *)
Theorem startup_on_free_port (prog : string) (rest : list string)
    (k : Kernel) (p : Z) :
  (1024 <= p <= 65535)%Z -> p ∉ listening k ->
  startup (prog :: str p :: rest) k =
    Ok ({| listening := {[p]} ∪ listening k; ephemeral := ephemeral k |},
        {| server_address := ("127.0.0.1", p) |}) /\
  (p = 8765%Z ->
     startup [prog] k = startup (prog :: str p :: rest) k /\
     startup [] k = startup (prog :: str p :: rest) k).
Proof.
  intros Hr Hf.
  assert (E : startup (prog :: str p :: rest) k =
              Ok ({| listening := {[p]} ∪ listening k; ephemeral := ephemeral k |},
                  {| server_address := ("127.0.0.1", p) |})).
  { unfold startup, main_port, HTTPServer_init, mbind, result_bind.
    cbn [length nth Nat.ltb Nat.leb]. rewrite int_str by lia.
    cbn [snd fst]. now rewrite socket_bind_free. }
  split; [exact E|].
  intros ->. rewrite E.
  unfold startup, main_port, HTTPServer_init, mbind, result_bind, DEFAULT_PORT.
  cbn [length Nat.ltb Nat.leb snd fst]. now rewrite socket_bind_free.
Qed.

Lemma startup_on_free_port_witness :
  startup ["mcp_oauth_test_server.py"; "9999"; "--verbose"]
    {| listening := {[8765%Z]}; ephemeral := fun _ => 49152%Z |} =
  Ok ({| listening := {[9999%Z]} ∪ {[8765%Z]}; ephemeral := fun _ => 49152%Z |},
      {| server_address := ("127.0.0.1", 9999%Z) |}).
Proof.
  refine (proj1 (startup_on_free_port "mcp_oauth_test_server.py" ["--verbose"]
                   {| listening := {[8765%Z]}; ephemeral := fun _ => 49152%Z |}
                   9999 _ _)).
  - lia.
  - cbn [listening]. intros H. apply elem_of_singleton in H. discriminate H.
Defined.

(** X3. An argument that parses to a number below 0 or above 65535 never
    starts the server: binding raises [OverflowError] whatever the state of
    the ports, and [main] ends with it. *)
Theorem port_out_of_range_raises (argv : list string) (k : Kernel)
    (requests : list Request) (port : Z) :
  main_port argv = Ok port ->
  (port < 0 \/ 65535 < port)%Z ->
  startup argv k = Raise OverflowError /\
  main argv k requests = Raise OverflowError /\
  main_prints argv k = Raise OverflowError.
Proof.
  intros P Hr.
  assert (B : socket_bind k port = Raise OverflowError).
  { unfold socket_bind.
    assert (E : (port <? 0)%Z || (65535 <? port)%Z = true).
    { apply orb_true_iff. destruct Hr; [left; apply Z.ltb_lt | right; apply Z.ltb_lt]; lia. }
    now rewrite E. }
  assert (S : startup argv k = Raise OverflowError).
  { unfold startup, HTTPServer_init, mbind, result_bind. rewrite P.
    cbn [snd fst]. now rewrite B. }
  split; [exact S|]. split.
  - unfold main, mbind, result_bind. now rewrite S.
  - unfold main_prints, HTTPServer_init, mbind, result_bind. rewrite P.
    cbn [snd fst]. now rewrite B.
Qed.

Lemma port_out_of_range_raises_witness :
  startup ["mcp_oauth_test_server.py"; "-1"] idle_kernel = Raise OverflowError /\
  startup ["mcp_oauth_test_server.py"; "65536"] idle_kernel = Raise OverflowError.
Proof.
  split.
  - refine (proj1 (port_out_of_range_raises
                     ["mcp_oauth_test_server.py"; "-1"] idle_kernel [] (-1) eq_refl _)).
    left. lia.
  - refine (proj1 (port_out_of_range_raises
                     ["mcp_oauth_test_server.py"; "65536"] idle_kernel [] 65536 eq_refl _)).
    right. lia.
Defined.

(** X4. Beside a running server, a second one starts on any other free
    port from 1024 to 65535: both ports are then taken. *)
Theorem second_instance_on_other_port (argv1 argv2 : list string)
    (k k1 : Kernel) (srv1 : HTTPServer) (q : Z) :
  startup argv1 k = Ok (k1, srv1) ->
  main_port argv2 = Ok q ->
  (1024 <= q <= 65535)%Z -> q ∉ listening k -> q <> snd (server_address srv1) ->
  exists k2,
    startup argv2 k1 = Ok (k2, {| server_address := ("127.0.0.1", q) |}) /\
    listening k2 = {[q]} ∪ ({[snd (server_address srv1)]} ∪ listening k).
Proof.
  intros S1 P Hr Hf Hne.
  destruct (startup_Ok _ _ _ _ S1) as (port & p & _ & B & ->).
  apply socket_bind_Ok in B as (_ & _ & _ & Hl & _).
  cbn [server_address snd] in *.
  assert (Hf1 : q ∉ listening k1).
  { rewrite Hl, elem_of_union, elem_of_singleton. intros [H | H]; contradiction. }
  eexists. split.
  - unfold startup, HTTPServer_init, mbind, result_bind. rewrite P.
    cbn [snd fst]. rewrite (socket_bind_free _ _ Hr Hf1). reflexivity.
  - cbn [listening]. now rewrite Hl.
Qed.

Lemma second_instance_on_other_port_witness :
  exists k2,
    startup ["mcp_oauth_test_server.py"; "9999"]
      {| listening := {[8765%Z]} ∪ ∅; ephemeral := fun _ => 49152%Z |}
    = Ok (k2, {| server_address := ("127.0.0.1", 9999%Z) |}) /\
    listening k2 = {[9999%Z]} ∪ ({[8765%Z]} ∪ ∅).
Proof.
  refine (second_instance_on_other_port
            ["mcp_oauth_test_server.py"] ["mcp_oauth_test_server.py"; "9999"]
            idle_kernel _ {| server_address := ("127.0.0.1", 8765%Z) |} 9999
            eq_refl eq_refl _ _ _).
  - lia.
  - cbn [listening idle_kernel]. apply not_elem_of_empty.
  - discriminate.
Defined.

(** ** The table of answers *)

Lemma is_mcp_post_dec (r : Request) : is_mcp_post r \/ ~ is_mcp_post r.
Proof.
  unfold is_mcp_post.
  destruct (String.eqb_spec (req_command r) "POST") as [Hc | Hc];
    [|right; tauto].
  destruct (String.eqb_spec (req_path r) "/mcp") as [Hp | Hp];
    [left; tauto|].
  destruct (startswith (req_path r) "/mcp/") eqn:E.
  - left. split; [exact Hc|]. right. now apply startswith_spec.
  - right. intros [_ [H | H]]; [contradiction|].
    apply startswith_spec in H. congruence.
Qed.

Lemma is_metadata_get_dec (r : Request) : is_metadata_get r \/ ~ is_metadata_get r.
Proof.
  unfold is_metadata_get.
  destruct (String.eqb_spec (req_command r) "GET") as [Hc | Hc];
    [|right; tauto].
  destruct (String.eqb_spec (req_path r) metadata_path) as [Hp | Hp];
    [left; tauto|].
  destruct (String.eqb_spec (req_path r) metadata_path_short) as [Hq | Hq];
    [left; tauto|].
  right. tauto.
Qed.

(** The four answers, and when each is given. *)
Lemma handle_cases (srv : HTTPServer) (r : Request) :
  (is_mcp_post r /\
   handle_one_request srv r = Responded
     {| status := Some 401%Z;
        headers := [("Content-Type", "application/json; charset=utf-8");
                    ("WWW-Authenticate",
                     challenge_text (resource_metadata (snd (server_address srv))))];
        headers_ended := true;
        body := jsonrpc_error_text |}) \/
  (is_metadata_get r /\
   handle_one_request srv r = Responded
     {| status := Some 200%Z;
        headers := [("Content-Type", "application/json")];
        headers_ended := true;
        body := metadata_text (http_url "127.0.0.1" (snd (server_address srv)) "/mcp") |}) \/
  (~ is_mcp_post r /\ ~ is_metadata_get r /\
   (req_command r = "POST" \/ req_command r = "GET") /\
   handle_one_request srv r = Responded not_found) \/
  (req_command r <> "POST" /\ req_command r <> "GET" /\
   handle_one_request srv r = Unsupported_method (req_command r)).
Proof.
  destruct (is_mcp_post_dec r) as [HP | HP].
  { left. split; [exact HP|]. destruct HP as [Hc Hp].
    rewrite (handle_POST _ _ Hc). now rewrite do_POST_match. }
  destruct (is_metadata_get_dec r) as [HG | HG].
  { right. left. split; [exact HG|]. destruct HG as [Hc Hp].
    rewrite (handle_GET _ _ Hc). now rewrite do_GET_match. }
  right. right.
  destruct (String.eqb_spec (req_command r) "POST") as [Hc | Hc].
  { left. repeat split; try assumption; [now left|].
    rewrite (handle_POST _ _ Hc). f_equal. apply do_POST_miss; cbn [path self_of].
    - intros E. apply HP. split; [exact Hc | now left].
    - intros E. apply HP. split; [exact Hc | now right]. }
  destruct (String.eqb_spec (req_command r) "GET") as [Hg | Hg].
  { left. repeat split; try assumption; [now right|].
    rewrite (handle_GET _ _ Hg). f_equal. apply do_GET_miss; cbn [path self_of].
    - intros E. apply HG. split; [exact Hg | now left].
    - intros E. apply HG. split; [exact Hg | now right]. }
  right. repeat split; try assumption. now apply handle_other.
Qed.

(** Among the requests handed to the dispatch, the status tells the
    route. *)
Lemma status_tells_the_route (srv : HTTPServer) (r : Request) :
  (status_code (handle_one_request srv r) = Some 401%Z <-> is_mcp_post r) /\
  (status_code (handle_one_request srv r) = Some 200%Z <-> is_metadata_get r) /\
  (status_code (handle_one_request srv r) = Some 501%Z <->
     req_command r <> "POST" /\ req_command r <> "GET") /\
  (status_code (handle_one_request srv r) = Some 401%Z \/
   status_code (handle_one_request srv r) = Some 200%Z \/
   status_code (handle_one_request srv r) = Some 404%Z \/
   status_code (handle_one_request srv r) = Some 501%Z).
Proof.
  destruct (handle_cases srv r)
    as [(HP & ->) | [(HG & ->) | [(HP & HG & Hc & ->) | (H1 & H2 & ->)]]];
    cbn [status_code status not_found];
    (split; [|split; [|split]]);
    try (unfold is_mcp_post, is_metadata_get in *;
         intuition (try discriminate; try congruence)).
Qed.

(** X6. The routes belong to their methods: the paths that a POST finds
    challenged are answered 404 to a GET, and the two metadata paths are
    answered 404 to a POST. *)
Theorem routes_are_method_specific (srv : HTTPServer) (r r' : Request) :
  req_path r' = req_path r ->
  (is_mcp_post r -> req_command r' = "GET" ->
     handle_one_request srv r' = Responded not_found) /\
  (is_metadata_get r -> req_command r' = "POST" ->
     handle_one_request srv r' = Responded not_found).
Proof.
  intros Hpath. split.
  - intros [_ Hp] Hc. rewrite (handle_GET _ _ Hc). f_equal.
    apply do_GET_miss; cbn [path self_of]; rewrite Hpath;
      unfold metadata_path, metadata_path_short;
      destruct Hp as [-> | [rest ->]]; discriminate.
  - intros [_ Hp] Hc. rewrite (handle_POST _ _ Hc). f_equal.
    apply do_POST_miss; cbn [path self_of]; rewrite Hpath;
      unfold metadata_path, metadata_path_short in Hp.
    + destruct Hp as [-> | ->]; discriminate.
    + intros [rest H]. destruct Hp as [Hp | Hp]; rewrite Hp in H; discriminate H.
Qed.

Lemma routes_are_method_specific_witness :
  handle_one_request {| server_address := ("127.0.0.1", 8765%Z) |}
    (mkRequest "GET" "/mcp/messages" [] "") = Responded not_found /\
  handle_one_request {| server_address := ("127.0.0.1", 8765%Z) |}
    (mkRequest "POST" "/.well-known/oauth-protected-resource" [] "")
  = Responded not_found.
Proof.
  split.
  - refine (proj1 (routes_are_method_specific
                     {| server_address := ("127.0.0.1", 8765%Z) |}
                     (mkRequest "POST" "/mcp/messages" [] "")
                     (mkRequest "GET" "/mcp/messages" [] "") eq_refl) _ eq_refl).
    split; [reflexivity | right; exists "messages"; reflexivity].
  - refine (proj2 (routes_are_method_specific
                     {| server_address := ("127.0.0.1", 8765%Z) |}
                     (mkRequest "GET" "/.well-known/oauth-protected-resource" [] "")
                     (mkRequest "POST" "/.well-known/oauth-protected-resource" [] "")
                     eq_refl) _ eq_refl).
    split; [reflexivity | right; reflexivity].
Defined.

(** X7. A handler sets no header but [Content-Type] and [WWW-Authenticate],
    each at most once: no [Content-Length] and no [Connection] header comes
    from the script.  [WWW-Authenticate] is there exactly on a 401, and
    [Content-Type] exactly when there is a body. *)
Theorem headers_of_a_response (srv : HTTPServer) (r : Request) (w : Wire) :
  handle_one_request srv r = Responded w ->
  Forall (fun kv => fst kv = "Content-Type" \/ fst kv = "WWW-Authenticate")
         (headers w) /\
  NoDup (map fst (headers w)) /\
  header "Content-Length" w = None /\
  header "Connection" w = None /\
  (header "WWW-Authenticate" w <> None <-> status w = Some 401%Z) /\
  (header "Content-Type" w <> None <-> body w <> "").
Proof.
  intros H.
  destruct (handle_cases srv r)
    as [(_ & E) | [(_ & E) | [(_ & _ & _ & E) | (_ & _ & E)]]];
    rewrite E in H; [| | |discriminate]; injection H as <-;
    unfold header; cbn [headers status body not_found];
    (split; [|split; [|split; [|split; [|split]]]]);
    try reflexivity.
  - constructor; [now left|]. constructor; [now right|]. constructor.
  - cbn. apply (bool_decide_unpack _). vm_compute. exact I.
  - cbn. split; [intros _; reflexivity | intros _; discriminate].
  - cbn. split; intros _; discriminate.
  - constructor; [now left|]. constructor.
  - cbn. apply NoDup_singleton.
  - cbn. split; [intros H; now contradiction H | discriminate].
  - cbn. split; intros _; discriminate.
  - constructor.
  - cbn. apply NoDup_nil_2.
  - cbn. split; [intros H; now contradiction H | discriminate].
  - cbn. split; intros H; now contradiction H.
Qed.

Lemma headers_of_a_response_witness :
  header "Content-Length"
    (run (do_POST (self_of {| server_address := ("127.0.0.1", 8765%Z) |}
                           (mkRequest "POST" "/mcp" [] "")))) = None.
Proof.
  exact (proj1 (proj2 (proj2 (headers_of_a_response
                  {| server_address := ("127.0.0.1", 8765%Z) |}
                  (mkRequest "POST" "/mcp" [] "") _ eq_refl)))).
Defined.

(** X8. A handler always ends the headers, and it writes a body exactly
    when its status is not 404: a 404 is a status line and nothing else. *)
Theorem response_is_complete (srv : HTTPServer) (r : Request) (w : Wire) :
  handle_one_request srv r = Responded w ->
  headers_ended w = true /\
  (body w = "" <-> status w = Some 404%Z) /\
  (status w = Some 404%Z -> w = not_found).
Proof.
  intros H.
  destruct (handle_cases srv r)
    as [(_ & E) | [(_ & E) | [(_ & _ & _ & E) | (_ & _ & E)]]];
    rewrite E in H; [| | |discriminate]; injection H as <-;
    cbn [headers_ended status body not_found];
    (split; [reflexivity|]); split;
    try (split; [intros H; discriminate H | intros H; discriminate H]);
    try (intros H; discriminate H).
  - split; reflexivity.
  - reflexivity.
Qed.

Lemma response_is_complete_witness :
  run (do_GET (self_of {| server_address := ("127.0.0.1", 8765%Z) |}
                       (mkRequest "GET" "/foo" [] ""))) = not_found.
Proof.
  refine (proj2 (proj2 (response_is_complete
                          {| server_address := ("127.0.0.1", 8765%Z) |}
                          (mkRequest "GET" "/foo" [] "") _ eq_refl)) eq_refl).
Defined.

(** ** The port in the replies *)

Lemma length_append (a b : string) :
  String.length (a +:+ b) = (String.length a + String.length b)%nat.
Proof.
  induction a as [|x a IH]; simpl; [reflexivity | now rewrite IH].
Qed.

Lemma append_inj_r (a b c : string) : a +:+ c = b +:+ c -> a = b.
Proof.
  revert b. induction a as [|x a IH]; intros [|y b] H; simpl in H.
  - reflexivity.
  - apply (f_equal String.length) in H. simpl in H.
    rewrite length_append in H. lia.
  - apply (f_equal String.length) in H. simpl in H.
    rewrite length_append in H. lia.
  - injection H as -> H. f_equal. now apply IH.
Qed.

Lemma to_int_not_nil (n : Z) :
  Z.to_int n <> Decimal.Pos Decimal.Nil /\ Z.to_int n <> Decimal.Neg Decimal.Nil.
Proof.
  split; intros H;
    pose proof (f_equal Z.of_int H) as E; rewrite DecimalZ.of_to in E;
    cbn in E; subst n; discriminate H.
Qed.

Lemma str_inj (p q : Z) : str p = str q -> p = q.
Proof.
  unfold str. intros H.
  apply (f_equal NilZero.int_of_string) in H.
  destruct (to_int_not_nil p) as [P1 P2], (to_int_not_nil q) as [Q1 Q2].
  rewrite !NilZero.isi in H by assumption.
  injection H as H. now apply DecimalZ.to_int_inj.
Qed.

Lemma resource_metadata_inj (p q : Z) :
  resource_metadata p = resource_metadata q -> p = q.
Proof.
  intros H. unfold resource_metadata in H. simpl in H.
  injection H as H. apply append_inj_r in H. now apply str_inj.
Qed.

Lemma challenge_text_inj (u v : string) :
  challenge_text u = challenge_text v -> u = v.
Proof.
  intros H. unfold challenge_text in H. simpl in H.
  injection H as H. now apply append_inj_r in H.
Qed.

(** X9. The port can be read off the replies: [resource_metadata] gives
    different URLs for different ports, and two servers that answer a POST
    of the MCP route alike, or a GET of a metadata path alike, are bound to
    the same port. *)
Theorem replies_tell_the_port (srv1 srv2 : HTTPServer) (r : Request) :
  (forall p q : Z, resource_metadata p = resource_metadata q -> p = q) /\
  (is_mcp_post r \/ is_metadata_get r ->
   handle_one_request srv1 r = handle_one_request srv2 r ->
   snd (server_address srv1) = snd (server_address srv2)).
Proof.
  split; [exact resource_metadata_inj|].
  intros Hr H.
  destruct (handle_cases srv1 r)
    as [(HP & E1) | [(HG & E1) | [(HP & HG & _) | (H1 & H2 & _)]]].
  - destruct (handle_cases srv2 r)
      as [(_ & E2) | [([Hc _] & _) | [(HP' & _) | (H1 & _)]]];
      try (destruct HP as [Hc' _]; congruence); try contradiction.
    rewrite E1, E2 in H.
    assert (H' : challenge_text (resource_metadata (snd (server_address srv1))) =
                 challenge_text (resource_metadata (snd (server_address srv2))))
      by congruence.
    now apply challenge_text_inj, resource_metadata_inj in H'.
  - destruct (handle_cases srv2 r)
      as [([Hc _] & _) | [(_ & E2) | [(_ & HG' & _) | (H1 & H2 & _)]]];
      try (destruct HG as [Hc' _]; congruence); try contradiction.
    rewrite E1, E2 in H. injection H as H.
    unfold metadata_text, http_url in H. simpl in H.
    do 2 apply append_inj_r in H. now apply str_inj.
  - tauto.
  - destruct Hr as [[Hc _] | [Hc _]]; contradiction.
Qed.

Lemma replies_tell_the_port_witness :
  snd (server_address {| server_address := ("127.0.0.1", 9999%Z) |}) =
  snd (server_address {| server_address := ("localhost", 9999%Z) |}).
Proof.
  refine (proj2 (replies_tell_the_port
                   {| server_address := ("127.0.0.1", 9999%Z) |}
                   {| server_address := ("localhost", 9999%Z) |}
                   (mkRequest "POST" "/mcp" [] "")) _ eq_refl).
  left. split; [reflexivity | now left].
Defined.

(** ** Diagnostic output *)

(** X10. The log line of the script shows the first argument of the call
    and nothing else: for a request that is the request line, so that the
    status code and the size the base class passes never reach the log; for
    an error it is the error code alone.  Only a call without arguments
    makes [log_message] raise. *)
Theorem log_shows_first_argument_only :
  (forall (format : string) (args : list pyval),
     log_message format args = None <-> args = []) /\
  (forall (f1 f2 : string) (a : pyval) (t1 t2 : list pyval),
     log_message f1 (a :: t1) = log_message f2 (a :: t2)) /\
  (forall (requestline : string) (code : Z) (size : string),
     log_request requestline code size =
       Some ("[server] " +:+ requestline +:+ newline)) /\
  (forall (format message : string) (code : Z),
     log_error format [PInt code; PStr message] =
       Some ("[server] " +:+ str code +:+ newline)).
Proof.
  split; [|split; [|split]].
  - intros format [|a args]; cbn; split; congruence.
  - reflexivity.
  - intros. unfold log_request, log_message, print. cbn [format_value].
    simpl. reflexivity.
  - intros. unfold log_error, log_message, print. cbn [format_value].
    simpl. reflexivity.
Qed.

Lemma main_prints_Ok (argv : list string) (k k' : Kernel) (srv : HTTPServer) :
  startup argv k = Ok (k', srv) ->
  exists port, main_port argv = Ok port /\ main_prints argv k = Ok (banner port).
Proof.
  unfold startup, main_prints, mbind, result_bind.
  destruct (main_port argv) as [port|]; [|discriminate].
  destruct (HTTPServer_init k ("127.0.0.1", port)); [|discriminate].
  intros _. now exists port.
Qed.

(** X11. Once the server is built, [main] prints two lines; the second
    announces [resource_metadata port] for the port of the command line (or
    8765).  When that port is not 0, this is the URL every challenge of the
    server carries; when it is 0, no reply of the server carries it, since
    the challenges name the port the kernel chose. *)
Theorem banner_and_challenge (argv : list string) (k k' : Kernel)
    (srv : HTTPServer) :
  startup argv k = Ok (k', srv) ->
  exists port,
    main_port argv = Ok port /\
    main_prints argv k =
      Ok [ print ("Todoist-style MCP OAuth test server on http://127.0.0.1:" +:+ str port);
           print ("POST /mcp -> 401 WWW-Authenticate resource_metadata=" +:+
                  resource_metadata port) ] /\
    (port <> 0%Z ->
       forall r, is_mcp_post r ->
         exists w, handle_one_request srv r = Responded w /\
                   header "WWW-Authenticate" w =
                     Some (challenge_text (resource_metadata port))) /\
    (port = 0%Z ->
       forall r w, handle_one_request srv r = Responded w ->
         header "WWW-Authenticate" w <>
           Some (challenge_text (resource_metadata port))).
Proof.
  intros S.
  destruct (main_prints_Ok _ _ _ _ S) as (port & P & B).
  pose proof (bound_port_positive _ _ _ _ S) as Hpos.
  destruct (startup_Ok _ _ _ _ S) as (port' & p & P' & Bd & ->).
  rewrite P in P'. injection P' as <-.
  apply socket_bind_Ok in Bd as (_ & _ & _ & _ & Hn & _).
  cbn [server_address snd] in Hpos.
  exists port. split; [exact P|].
  split; [exact B|]. split.
  - intros Hp r Hr. rewrite (Hn Hp).
    destruct (handle_cases {| server_address := ("127.0.0.1", port) |} r)
      as [(_ & E) | [([Hc _] & _) | [(HP & _) | (H1 & _)]]].
    + eexists. split; [exact E | reflexivity].
    + destruct Hr as [Hc' _]. congruence.
    + contradiction.
    + destruct Hr as [Hc' _]. contradiction.
  - intros -> r w H.
    destruct (handle_cases {| server_address := ("127.0.0.1", p) |} r)
      as [(_ & E) | [(_ & E) | [(_ & _ & _ & E) | (_ & _ & E)]]];
      rewrite E in H; [| | |discriminate]; injection H as <-.
    + change (Some (challenge_text (resource_metadata p))
              <> Some (challenge_text (resource_metadata 0))).
      intros H. apply (inj Some), challenge_text_inj, resource_metadata_inj in H.
      lia.
    + discriminate.
    + discriminate.
Qed.

Lemma banner_and_challenge_witness :
  main_prints ["mcp_oauth_test_server.py"; "9999"] idle_kernel =
  Ok [ print "Todoist-style MCP OAuth test server on http://127.0.0.1:9999";
       print ("POST /mcp -> 401 WWW-Authenticate resource_metadata=" +:+
              "http://127.0.0.1:9999/.well-known/oauth-protected-resource/mcp") ].
Proof.
  destruct (banner_and_challenge
              ["mcp_oauth_test_server.py"; "9999"] idle_kernel _
              {| server_address := ("127.0.0.1", 9999%Z) |} eq_refl)
    as (port & P & B & _).
  injection P as <-. exact B.
Defined.

(** ** Before the handler: the request line and the headers *)

Ltac case_if :=
  match goal with
  | |- context [if ?b then _ else _] => destruct b eqn:?
  end.

Lemma parse_requestline_ok (line v command p : string) :
  parse_requestline line = RL_ok v command p ->
  command = nth 0 (str_split (rstrip_crlf line)) "" /\
  p = handed_path (nth 1 (str_split (rstrip_crlf line)) "").
Proof.
  unfold parse_requestline. cbv zeta.
  case_if; [discriminate|].
  destruct (3 <=? length (str_split (rstrip_crlf line)))%nat.
  - destruct (version_number _) as [[major minor]|]; [|discriminate].
    case_if; [discriminate|].
    case_if; [discriminate|]. case_if; [discriminate|].
    intros [= _ <- <-]. split; reflexivity.
  - case_if; [discriminate|]. case_if; [discriminate|].
    intros [= _ <- <-]. split; reflexivity.
Qed.

Lemma parse_requestline_error (line v : string) (code : Z) :
  parse_requestline line = RL_error v code -> code = 400%Z \/ code = 505%Z.
Proof.
  unfold parse_requestline. cbv zeta.
  case_if; [discriminate|].
  destruct (3 <=? length (str_split (rstrip_crlf line)))%nat.
  - destruct (version_number _) as [[major minor]|]; [|intros [= _ <-]; now left].
    case_if; [intros [= _ <-]; now right|].
    case_if; [intros [= _ <-]; now left|].
    case_if; [intros [= _ <-]; now left | discriminate].
  - case_if; [intros [= _ <-]; now left|].
    case_if; [intros [= _ <-]; now left | discriminate].
Qed.

Lemma receive_ok (parsestr : string -> list (string * string))
    (rfile v : string) (q : Request) :
  receive parsestr rfile = Parse_ok v q ->
  req_path q = handed_path (request_target rfile) /\
  exists line rest lines,
    readline 65537 rfile = (line, rest) /\
    parse_requestline line = RL_ok v (req_command q) (req_path q) /\
    read_headers 100 rest [] = Headers_read lines (req_body q).
Proof.
  unfold receive, request_target.
  destruct (readline 65537 rfile) as [line rest]. cbn [fst].
  case_if; [discriminate|]. case_if; [discriminate|].
  unfold parse_request.
  destruct (parse_requestline line) as [|v' c|v' command p] eqn:P; try discriminate.
  destruct (read_headers 100 rest []) as [| |lines body] eqn:Hd; try discriminate.
  intros [= <- <-]. cbn [req_path req_command req_body].
  split.
  - exact (proj2 (parse_requestline_ok _ _ _ _ P)).
  - exists line, rest, lines. repeat split; assumption.
Qed.

Lemma receive_error (parsestr : string -> list (string * string))
    (rfile v : string) (code : Z) :
  receive parsestr rfile = Parse_error v code ->
  code = 400%Z \/ code = 414%Z \/ code = 431%Z \/ code = 505%Z.
Proof.
  unfold receive.
  destruct (readline 65537 rfile) as [line rest].
  case_if; [intros [= _ <-]; tauto|]. case_if; [discriminate|].
  unfold parse_request.
  destruct (parse_requestline line) as [|v' c|v' command p] eqn:P; try discriminate.
  - intros [= _ <-]. destruct (parse_requestline_error _ _ _ P); tauto.
  - destruct (read_headers 100 rest []); try discriminate;
      intros [= _ <-]; tauto.
Qed.

Lemma len_String (c : ascii) (s : string) : len (String c s) = N.succ (len s).
Proof. unfold len. cbn [String.length]. apply Nat2N.inj_succ. Qed.

Lemma len_append (a b : string) : len (a +:+ b) = (len a + len b)%N.
Proof. unfold len. rewrite length_append. apply Nat2N.inj_add. Qed.

Lemma readline_text (text rest : string) (limit : N) :
  no_line_feed text = true -> (len text < limit)%N ->
  readline limit (text +:+ String LF rest) = (text +:+ String LF "", rest).
Proof.
  revert limit. induction text as [|c t IH]; intros limit Hn Hl.
  - cbn. assert (E : (limit =? 0)%N = false) by (apply N.eqb_neq; lia).
    now rewrite E.
  - cbn in Hn. apply andb_true_iff in Hn as [Hc Ht].
    rewrite len_String in Hl.
    change (String c t +:+ String LF rest) with (String c (t +:+ String LF rest)).
    cbn [readline].
    assert (E : (limit =? 0)%N = false) by (apply N.eqb_neq; lia).
    rewrite E. apply negb_true_iff in Hc. rewrite Hc.
    rewrite IH by (trivial; lia). reflexivity.
Qed.

Lemma readline_header_line (l rest : string) :
  header_line l ->
  readline 65537 (l +:+ rest) = (l, rest) /\ (65536 <? len l)%N = false.
Proof.
  intros (text & -> & Hn & Hl & _). split.
  - rewrite append_assoc. change (String LF "" +:+ rest) with (String LF rest).
    apply readline_text; [exact Hn|].
    rewrite len_append in Hl. change (len (String LF "")) with 1%N in Hl. lia.
  - apply N.ltb_ge. exact Hl.
Qed.

Lemma read_headers_step (room : nat) (l rest : string) (acc : list string) :
  header_line l ->
  read_headers (S room) (l +:+ rest) acc = read_headers room rest (acc ++ [l]).
Proof.
  intros H. destruct (readline_header_line l rest H) as [R L].
  destruct H as (_ & _ & _ & _ & B).
  cbn [read_headers]. now rewrite R, L, B.
Qed.

(** With as many lines as there is room, or more, the section is not read
    through. *)
Lemma read_headers_many (ls : list string) :
  Forall header_line ls ->
  forall (room : nat) (tail : string) (acc : list string),
    (room <= length ls)%nat ->
    read_headers room (lines_then ls tail) acc = Too_many_headers \/
    read_headers room (lines_then ls tail) acc = Line_too_long.
Proof.
  induction 1 as [|l ls Hl _ IH]; intros room tail acc Hr.
  - cbn in Hr. assert (room = 0%nat) as -> by lia.
    cbn [lines_then fold_right read_headers].
    destruct (readline 65537 tail) as [line rest].
    destruct (65536 <? len line)%N; [now right | now left].
  - cbn [lines_then fold_right]. destruct room as [|room].
    + destruct (readline_header_line l (fold_right String.append tail ls) Hl)
        as [R L].
      cbn [read_headers]. rewrite R, L. now left.
    + rewrite read_headers_step by exact Hl.
      apply IH. cbn in Hr. lia.
Qed.

(** With fewer lines, then the blank line, the section is read through and
    what follows is the body. *)
Lemma read_headers_few (ls : list string) :
  Forall header_line ls ->
  forall (room : nat) (body : string) (acc : list string),
    (length ls < room)%nat ->
    read_headers room (lines_then ls (crlf +:+ body)) acc
    = Headers_read (acc ++ ls ++ [crlf]) body.
Proof.
  induction 1 as [|l ls Hl _ IH]; intros room body acc Hr.
  - destruct room as [|room]; [cbn in Hr; lia|]. reflexivity.
  - destruct room as [|room]; [cbn in Hr; lia|].
    cbn [lines_then fold_right]. rewrite read_headers_step by exact Hl.
    change (fold_right String.append (crlf +:+ body) ls)
      with (lines_then ls (crlf +:+ body)).
    rewrite IH by (cbn in Hr; lia).
    now rewrite <- app_assoc.
Qed.

(** A header section that is not read through is answered 431, whatever
    the method and the path. *)
Lemma unread_headers_431 (parsestr : string -> list (string * string))
    (line rest v command p : string) :
  parse_requestline line = RL_ok v command p ->
  (read_headers 100 rest [] = Too_many_headers \/
   read_headers 100 rest [] = Line_too_long) ->
  parse_request parsestr line rest = Parse_error v 431.
Proof.
  intros P H. unfold parse_request. rewrite P.
  destruct H as [-> | ->]; reflexivity.
Qed.

(** A POST of [/mcp] with a hundred header lines is answered 431 by the
    base class, the same request without them 401 by the script: same
    method, same path, other headers, another response. *)
Lemma headers_change_the_reply :
  receive one_field ("POST /mcp HTTP/1.1" +:+ crlf +:+ crlf)
  = Parse_ok "HTTP/1.1" (mkRequest "POST" "/mcp" [("", crlf)] "") /\
  parse_requestline ("POST /mcp HTTP/1.1" +:+ crlf) = RL_ok "HTTP/1.1" "POST" "/mcp" /\
  status_code
    (handle_one_request {| server_address := ("127.0.0.1", 8765%Z) |}
       (mkRequest "POST" "/mcp" [("", crlf)] "")) = Some 401%Z /\
  handle one_field {| server_address := ("127.0.0.1", 8765%Z) |}
    ("POST /mcp HTTP/1.1" +:+ crlf +:+
     repeat_string 100 ("X-Test: 1" +:+ crlf) +:+ crlf)
  = Error_reply "HTTP/1.1" 431 /\
  handle one_field {| server_address := ("127.0.0.1", 8765%Z) |}
    ("POST /mcp HTTP/1.1" +:+ crlf +:+ crlf)
  <> Error_reply "HTTP/1.1" 431.
Proof.
  split; [vm_compute; reflexivity|]. split; [vm_compute; reflexivity|].
  split; [vm_compute; reflexivity|]. split; [vm_compute; reflexivity|].
  vm_compute. discriminate.
Qed.

(** C8, amended. Of a request that the base class accepts (a request line
    it can read, a header section it reads through), the response depends
    on the method, the path and the server only: two accepted requests with
    the same method and the same path get the same response of the script
    whatever their headers and bodies, and the same reply on the wire when
    their protocol versions agree.  A request with a hundred header lines
    or more is answered 431 before any method of the script runs; with
    fewer lines and the blank line the headers are read through, whatever
    they hold. *)
Theorem accepted_requests_ignore_headers_and_body
    (parsestr1 parsestr2 : string -> list (string * string))
    (srv : HTTPServer) (rfile1 rfile2 v1 v2 : string) (q1 q2 : Request) :
  receive parsestr1 rfile1 = Parse_ok v1 q1 ->
  receive parsestr2 rfile2 = Parse_ok v2 q2 ->
  req_command q1 = req_command q2 ->
  req_path q1 = req_path q2 ->
  handle_one_request srv q1 = handle_one_request srv q2 /\
  (v1 = v2 -> handle parsestr1 srv rfile1 = handle parsestr2 srv rfile2) /\
  (forall parsestr line v command p (ls : list string) (tail : string),
     parse_requestline line = RL_ok v command p ->
     Forall header_line ls -> (100 <= length ls)%nat ->
     parse_request parsestr line (lines_then ls tail) = Parse_error v 431) /\
  (forall parsestr line v command p (ls : list string) (body : string),
     parse_requestline line = RL_ok v command p ->
     Forall header_line ls -> (length ls < 100)%nat ->
     parse_request parsestr line (lines_then ls (crlf +:+ body))
     = Parse_ok v {| req_command := command; req_path := p;
                     req_headers := parsestr (String.concat "" (ls ++ [crlf]));
                     req_body := body |}).
Proof.
  intros R1 R2 Hc Hp.
  assert (E : handle_one_request srv q1 = handle_one_request srv q2)
    by (now apply response_ignores_headers_and_body).
  split; [exact E|]. split.
  - intros ->. unfold handle. now rewrite R1, R2, E.
  - split.
    + intros parsestr line v c p ls tail P Hl Hn.
      apply (unread_headers_431 parsestr line _ v c p P).
      now apply read_headers_many.
    + intros parsestr line v c p ls body P Hl Hn.
      unfold parse_request. rewrite P.
      now rewrite (read_headers_few ls Hl 100 body []).
Qed.

Lemma accepted_requests_ignore_headers_and_body_witness :
  handle one_field {| server_address := ("127.0.0.1", 8765%Z) |}
    ("POST /mcp HTTP/1.1" +:+ crlf +:+ "Authorization: Bearer secret" +:+ crlf
     +:+ "Content-Length: 2" +:+ crlf +:+ crlf +:+ "{}") =
  handle (fun _ => []) {| server_address := ("127.0.0.1", 8765%Z) |}
    ("POST /mcp HTTP/1.1" +:+ crlf +:+ crlf).
Proof.
  refine (proj1 (proj2 (accepted_requests_ignore_headers_and_body
            one_field (fun _ => []) {| server_address := ("127.0.0.1", 8765%Z) |}
            ("POST /mcp HTTP/1.1" +:+ crlf +:+ "Authorization: Bearer secret" +:+ crlf
             +:+ "Content-Length: 2" +:+ crlf +:+ crlf +:+ "{}")
            ("POST /mcp HTTP/1.1" +:+ crlf +:+ crlf)
            "HTTP/1.1" "HTTP/1.1" _ _ eq_refl eq_refl eq_refl eq_refl)) eq_refl).
Defined.

(** [POST //mcp] is answered 401: the target is neither [/mcp] nor begins
    with [/mcp/], but the base class hands [/mcp] to the handler. *)
Lemma double_slash_target_is_matched :
  request_target ("POST //mcp HTTP/1.1" +:+ crlf +:+ crlf) = "//mcp" /\
  "//mcp" <> "/mcp" /\
  startswith "//mcp" "/mcp/" = false /\
  receive one_field ("POST //mcp HTTP/1.1" +:+ crlf +:+ crlf)
  = Parse_ok "HTTP/1.1" (mkRequest "POST" "/mcp" [("", crlf)] "") /\
  (exists w,
     handle one_field {| server_address := ("127.0.0.1", 8765%Z) |}
       ("POST //mcp HTTP/1.1" +:+ crlf +:+ crlf) = Handler_reply "HTTP/1.1" w /\
     status w = Some 401%Z) /\
  handle one_field {| server_address := ("127.0.0.1", 8765%Z) |}
    ("POST //mcp HTTP/1.1" +:+ crlf +:+ crlf)
  <> Handler_reply "HTTP/1.1" not_found.
Proof.
  split; [reflexivity|]. split; [discriminate|]. split; [reflexivity|].
  split; [reflexivity|]. split.
  - eexists. split; reflexivity.
  - vm_compute. discriminate.
Qed.

Lemma handed_path_single_slash (target : string) :
  startswith target "//" = false -> handed_path target = target.
Proof.
  unfold handed_path. now intros ->.
Qed.

Lemma handle_ok (parsestr : string -> list (string * string))
    (srv : HTTPServer) (rfile v : string) (q : Request) (w : Wire) :
  receive parsestr rfile = Parse_ok v q ->
  handle_one_request srv q = Responded w ->
  handle parsestr srv rfile = Handler_reply v w.
Proof.
  intros R H. unfold handle. now rewrite R, H.
Qed.

(** C10, amended. Paths are compared as strings, and the string is the path
    the base class hands to the handler: the request target, with the
    slashes of a target that begins with [//] reduced to one.  For an
    accepted request whose target begins with [/mcp] without being [/mcp]
    or beginning with [/mcp/] (such as [/mcpx] or [/mcp?x=1]) a POST gets
    the 404, and so does a GET whose target is a metadata path followed by
    a slash or by a query string. *)
Theorem paths_are_matched_as_handed
    (parsestr : string -> list (string * string)) (srv : HTTPServer)
    (rfile v : string) (q : Request) :
  receive parsestr rfile = Parse_ok v q ->
  req_path q = handed_path (request_target rfile) /\
  (startswith (request_target rfile) "//" = false ->
     req_path q = request_target rfile) /\
  (req_command q = "POST" ->
   (exists rest, request_target rfile = "/mcp" +:+ rest) ->
   request_target rfile <> "/mcp" ->
   ~ (exists rest, request_target rfile = "/mcp/" +:+ rest) ->
   handle parsestr srv rfile = Handler_reply v not_found) /\
  (req_command q = "GET" ->
   forall wk query : string,
     wk = metadata_path \/ wk = metadata_path_short ->
     request_target rfile = wk +:+ "/" \/
     request_target rfile = wk +:+ "?" +:+ query ->
     handle parsestr srv rfile = Handler_reply v not_found).
Proof.
  intros R. destruct (receive_ok _ _ _ _ R) as [Hp _].
  split; [exact Hp|]. split.
  { intros H. now rewrite Hp, handed_path_single_slash. }
  split.
  - intros Hc [rest Ht] H1 H2.
    assert (Hs : req_path q = request_target rfile).
    { rewrite Hp. apply handed_path_single_slash. now rewrite Ht. }
    apply (handle_ok _ _ _ _ _ _ R).
    rewrite (handle_POST _ _ Hc). f_equal.
    apply do_POST_miss; cbn [path self_of]; now rewrite Hs.
  - intros Hc wk query Hwk Ht.
    assert (Hs : req_path q = request_target rfile).
    { rewrite Hp. apply handed_path_single_slash.
      destruct Hwk as [-> | ->], Ht as [-> | ->]; reflexivity. }
    apply (handle_ok _ _ _ _ _ _ R).
    rewrite (handle_GET _ _ Hc). f_equal.
    apply do_GET_miss; cbn [path self_of]; rewrite Hs;
      destruct Hwk as [-> | ->], Ht as [-> | ->];
      unfold metadata_path, metadata_path_short; simpl; discriminate.
Qed.

Lemma paths_are_matched_as_handed_witness :
  handle one_field {| server_address := ("127.0.0.1", 8765%Z) |}
    ("POST /mcp?x=1 HTTP/1.1" +:+ crlf +:+ crlf)
  = Handler_reply "HTTP/1.1" not_found /\
  handle one_field {| server_address := ("127.0.0.1", 8765%Z) |}
    ("GET /.well-known/oauth-protected-resource/ HTTP/1.1" +:+ crlf +:+ crlf)
  = Handler_reply "HTTP/1.1" not_found.
Proof.
  split.
  - refine (proj1 (proj2 (proj2 (paths_are_matched_as_handed
              one_field {| server_address := ("127.0.0.1", 8765%Z) |}
              ("POST /mcp?x=1 HTTP/1.1" +:+ crlf +:+ crlf) "HTTP/1.1" _ eq_refl)))
            eq_refl _ _ _).
    + exists "?x=1". reflexivity.
    + discriminate.
    + intros [rest H]. discriminate H.
  - refine (proj2 (proj2 (proj2 (paths_are_matched_as_handed
              one_field {| server_address := ("127.0.0.1", 8765%Z) |}
              ("GET /.well-known/oauth-protected-resource/ HTTP/1.1" +:+ crlf +:+ crlf)
              "HTTP/1.1" _ eq_refl)))
            eq_refl metadata_path_short "" (or_intror eq_refl) (or_introl eq_refl)).
Defined.

(** X5. What a connection gets back: nothing, or one of the error replies
    400, 414, 431, 501, 505 of the base class, or a handler response with
    200, 401 or 404.  401 is given exactly to the accepted POSTs whose
    handed path is [/mcp] or begins with [/mcp/], 200 exactly to the
    accepted GETs of the two metadata paths, 501 exactly to the accepted
    requests of another method. *)
Theorem replies_of_a_connection
    (parsestr : string -> list (string * string)) (srv : HTTPServer)
    (rfile : string) :
  match handle parsestr srv rfile with
  | No_reply => True
  | Error_reply _ code =>
      code = 400%Z \/ code = 414%Z \/ code = 431%Z \/ code = 501%Z \/ code = 505%Z
  | Handler_reply _ w =>
      status w = Some 200%Z \/ status w = Some 401%Z \/ status w = Some 404%Z
  end /\
  ((exists v w, handle parsestr srv rfile = Handler_reply v w /\
                status w = Some 401%Z) <->
   (exists v q, receive parsestr rfile = Parse_ok v q /\ is_mcp_post q)) /\
  ((exists v w, handle parsestr srv rfile = Handler_reply v w /\
                status w = Some 200%Z) <->
   (exists v q, receive parsestr rfile = Parse_ok v q /\ is_metadata_get q)) /\
  ((exists v, handle parsestr srv rfile = Error_reply v 501) <->
   (exists v q, receive parsestr rfile = Parse_ok v q /\
                req_command q <> "POST" /\ req_command q <> "GET")).
Proof.
  unfold handle.
  destruct (receive parsestr rfile) as [|v c|v q] eqn:R.
  - split; [exact I|].
    split; [|split]; split; intros H; decompose [ex and] H; discriminate.
  - pose proof (receive_error _ _ _ _ R) as Hc.
    split; [tauto|].
    split; [|split]; split; intros H; decompose [ex and] H;
      try discriminate.
    match goal with E : Error_reply _ _ = Error_reply _ _ |- _ =>
      injection E as _ ->
    end.
    destruct Hc as [Hc | [Hc | [Hc | Hc]]]; discriminate Hc.
  - destruct (status_tells_the_route srv q) as (H401 & H200 & H501 & _).
    destruct (handle_cases srv q)
      as [(HP & E) | [(HG & E) | [(HP & HG & Hc & E) | (H1 & H2 & E)]]];
      rewrite E in *; cbn [status_code status not_found] in *;
      (split; [tauto|]);
      (split; [|split]); split; intros H;
      first
        [ solve [ exists v, q; tauto ]
        | solve [ eexists _, _; split; reflexivity ]
        | solve [ now exists v ]
        | solve [ decompose [ex and] H; simplify_eq; try discriminate;
                  intuition congruence ] ].
Qed.
